(** * convert_avi_to_mp4_cross_platform.py: a shallow embedding

    The script walks a directory tree, and for every AVI file runs
    [mplayer] (dump the raw H.264 stream into a temporary directory) and
    then [ffmpeg] (wrap the stream in an MP4 container next to the
    source).  The embedding keeps the structure of the script: one Rocq
    definition per Python function, the operating system as an explicit
    state, the two external programs as a parameter. *)

From Stdlib Require Import ZArith QArith Qround Qabs Ascii String DecimalString.
From stdpp Require Import gmap strings list fin_maps sorting.

Local Open Scope Z_scope.

(** ** Python strings *)

Module Str.

(** [str.join]: [sep.join(l)]. *)
Fixpoint join (sep : string) (l : list string) : string :=
  match l with
  | [] => ""
  | [x] => x
  | x :: l' => x +:+ sep +:+ join sep l'
  end.

(** [s.split(sep)] for a one-character separator: never the empty list. *)
Fixpoint split (sep : ascii) (s : string) : list string :=
  match s with
  | EmptyString => [""]
  | String c s' =>
      if Ascii.eqb c sep then "" :: split sep s'
      else match split sep s' with
           | h :: t => String c h :: t
           | [] => [String c ""]
           end
  end.

(** [sep in s]. *)
Fixpoint contains (c : ascii) (s : string) : bool :=
  match s with
  | EmptyString => false
  | String a s' => Ascii.eqb a c || contains c s'
  end.

(** [s.startswith(c)] and [s.endswith(c)] for one character. *)
Definition starts_with (c : ascii) (s : string) : bool :=
  match s with
  | String a _ => Ascii.eqb a c
  | EmptyString => false
  end.

Fixpoint ends_with (c : ascii) (s : string) : bool :=
  match s with
  | EmptyString => false
  | String a EmptyString => Ascii.eqb a c
  | String _ s' => ends_with c s'
  end.

(** [s.lstrip(c)]. *)
Fixpoint lstrip (c : ascii) (s : string) : string :=
  match s with
  | String a s' => if Ascii.eqb a c then lstrip c s' else s
  | EmptyString => ""
  end.

(** [i = s.rfind(c)] as the pair [(s[:i], s[i:])]; [None] when [c]
    does not occur ([rfind] returns -1). *)
Fixpoint rpartition (c : ascii) (s : string) : option (string * string) :=
  match s with
  | EmptyString => None
  | String a s' =>
      match rpartition c s' with
      | Some (l, r) => Some (String a l, r)
      | None => if Ascii.eqb a c then Some ("", s) else None
      end
  end.

(** Decimal notation of a natural number, as [str(n)] prints it. *)
Definition of_N (n : N) : string := NilZero.string_of_uint (N.to_uint n).

(** Decimal notation of an integer. *)
Definition of_Z (z : Z) : string :=
  if z <? 0 then "-" +:+ of_N (Z.to_N (- z)) else of_N (Z.to_N z).

(** What an f-string shows for an optional string. *)
Definition of_option (o : option string) : string := default "None" o.

(** ASCII lower case of one character, [c.lower()]. *)
Definition lower (c : ascii) : ascii :=
  let n := N_of_ascii c in
  if ((65 <=? n) && (n <=? 90))%N then ascii_of_N (n + 32) else c.

End Str.

(** ** [format_file_size]

    Python floats are IEEE doubles.  The function only compares with
    1024.0 and divides by 1024.0, a power of two, so for a byte count below
    2^53 every intermediate value is exactly the rational number
    [n / 1024^k]; the embedding computes with those rationals.  The format
    [:.2f] rounds the exact value to two decimals, ties to even. *)

(** [x < y] on exact values. *)
Definition Qltb (x y : Q) : bool := negb (Qle_bool y x).

(** Nearest integer, ties to the even neighbour. *)
Definition round_half_even (q : Q) : Z :=
  let f := Qfloor q in
  match (q - inject_Z f ?= 1 # 2)%Q with
  | Lt => f
  | Gt => f + 1
  | Eq => if Z.even f then f else f + 1
  end.

Definition two_digits (n : N) : string :=
  Str.of_N (n / 10) +:+ Str.of_N (n mod 10).

(** [f"{q:.2f}"]. *)
Definition format_2f (q : Q) : string :=
  let h := Z.to_N (round_half_even (100 * Qabs q)) in
  (if Qltb q 0 then "-" else "")
    +:+ Str.of_N (h / 100) +:+ "." +:+ two_digits (h mod 100).

(** The [for unit in [...]] loop with its running value; falling out of the
    loop returns Python's [None]. *)
Fixpoint format_file_size_loop (units : list string) (size_in_bytes : Q)
  : option string :=
  match units with
  | [] => None
  | unit :: rest =>
      if Qltb size_in_bytes 1024 || String.eqb unit "GB"
      then Some (format_2f size_in_bytes +:+ " " +:+ unit)
      else format_file_size_loop rest (size_in_bytes / 1024)
  end.

Definition format_file_size (size_in_bytes : Q) : option string :=
  format_file_size_loop ["B"; "KB"; "MB"; "GB"] size_in_bytes.


(** ** Exceptions

    Every class below derives from Python's [Exception]; [KeyboardInterrupt]
    and the other [BaseException]-only classes are outside the model. *)

Inductive exn_class :=
| ValueError | OSError | FileNotFoundError | PermissionError
| IsADirectoryError | CalledProcessError | TimeoutExpired | UnicodeDecodeError.

Record exn := Exn { exn_cls : exn_class; exn_str : string }.

(** [isinstance(e, subprocess.SubprocessError)]. *)
Definition is_SubprocessError (e : exn) : bool :=
  match exn_cls e with
  | CalledProcessError | TimeoutExpired => true
  | _ => false
  end.

Inductive result (A : Type) :=
| Ok (a : A)
| Raise (e : exn).
Arguments Ok {A} a.
Arguments Raise {A} e.

(** ** [pathlib.PurePosixPath] and [os.path.join]

    A path object is its root (["" ], ["/"] or ["//"]) and its components.
    The definitions follow CPython's [pathlib] (POSIX flavour). *)

Module pathlib.

Record PurePath := mkPath { root : string; parts : list string }.

Definition splitroot (part : string) : string * string :=
  if Str.starts_with "/" part then
    let stripped_part := Str.lstrip "/" part in
    if (String.length part - String.length stripped_part =? 2)%nat
    then ("//", stripped_part) else ("/", stripped_part)
  else ("", part).

(** [Path(s)]: empty and ["."] components are dropped. *)
Definition Path (s : string) : PurePath :=
  let '(rt, rel) := splitroot s in
  {| root := rt;
     parts := filter (λ x, x ≠ "" ∧ x ≠ ".") (Str.split "/" rel) |}.

(** [str(p)]. *)
Definition str (p : PurePath) : string :=
  match root p, parts p with
  | EmptyString, [] => "."
  | rt, ps => rt +:+ Str.join "/" ps
  end.

(** [p.name]: the final component, [''] when there is none. *)
Definition name (p : PurePath) : string := List.last (parts p) "".

(** [p.suffix] and [p.stem]: split at the last dot of the name, unless
    that dot is the first or the last character. *)
Definition suffix (p : PurePath) : string :=
  match Str.rpartition "." (name p) with
  | Some (l, r) =>
      if bool_decide (l ≠ "") && (1 <? String.length r)%nat then r else ""
  | None => ""
  end.

Definition stem (p : PurePath) : string :=
  match Str.rpartition "." (name p) with
  | Some (l, r) =>
      if bool_decide (l ≠ "") && (1 <? String.length r)%nat then l
      else name p
  | None => name p
  end.

(** [p.with_suffix(suffix)]. *)
Definition with_suffix (p : PurePath) (sfx : string) : result PurePath :=
  if Str.contains "/" sfx then
    Raise (Exn ValueError ("Invalid suffix '" +:+ sfx +:+ "'"))
  else if (bool_decide (sfx ≠ "") && negb (Str.starts_with "." sfx))
          || bool_decide (sfx = ".") then
    Raise (Exn ValueError ("Invalid suffix '" +:+ sfx +:+ "'"))
  else
    let nm := name p in
    if bool_decide (nm = "") then
      Raise (Exn ValueError
               ("PosixPath('" +:+ str p +:+ "') has an empty name"))
    else
      let old_suffix := suffix p in
      let nm' :=
        if bool_decide (old_suffix = "") then nm +:+ sfx
        else String.substring 0
               (String.length nm - String.length old_suffix) nm +:+ sfx in
      Ok {| root := root p; parts := removelast (parts p) ++ [nm'] |}.

(** [p.parent] for a path that has a name. *)
Definition parent (p : PurePath) : PurePath :=
  {| root := root p; parts := removelast (parts p) |}.

(** The spelling [pathlib] gives a path string. *)
Definition norm (s : string) : string := str (Path s).

End pathlib.
Export pathlib.

(** [os.path.join(a, b)] on POSIX. *)
Definition os_path_join (a b : string) : string :=
  if Str.starts_with "/" b then b
  else if bool_decide (a = "") || Str.ends_with "/" a then a +:+ b
  else a +:+ "/" +:+ b.

(** ** Shell-style patterns ([fnmatch]) *)

Inductive glob_token :=
| Star                      (* [*] *)
| Chr (c : ascii)           (* a literal character *)
| Class (cs : list ascii).  (* [[...]] *)

Fixpoint fnmatch (pat : list glob_token) (s : string) : bool :=
  match pat with
  | [] => bool_decide (s = "")
  | Star :: pat' =>
      (fix skip (s : string) : bool :=
         fnmatch pat' s ||
         match s with
         | String _ s' => skip s'
         | EmptyString => false
         end) s
  | Chr c :: pat' =>
      match s with
      | String a s' => Ascii.eqb a c && fnmatch pat' s'
      | EmptyString => false
      end
  | Class cs :: pat' =>
      match s with
      | String a s' => bool_decide (a ∈ cs) && fnmatch pat' s'
      | EmptyString => false
      end
  end.

(** The name part of ['**/*.[aA][vV][iI]']. *)
Definition avi_pattern : list glob_token :=
  [Star; Chr "."; Class ["a"; "A"]; Class ["v"; "V"]; Class ["i"; "I"]]%char.

(** ** The operating system

    The file system is a finite map from path strings to entries; a path
    string denotes the entry stored under its [pathlib] spelling, so
    ["a//b"], ["a/./b"] and ["a/b"] name one entry.  Symbolic links, [".."]
    and the working directory are not resolved.  Besides the file system
    the state records what was printed, which commands were started and which
    temporary directories were made. *)

Record node := Node { is_dir : bool; st_size : N }.

Record OS := mkOS {
  fs : gmap string node;
  stdout : list string;           (* one element per [print] call *)
  invoked : list (list string);   (* argv of every [subprocess.run] *)
  tmpdirs : list string           (* every temporary directory created *)
}.

Definition set_fs (f : gmap string node → gmap string node) (w : OS) : OS :=
  {| fs := f (fs w); stdout := stdout w; invoked := invoked w;
     tmpdirs := tmpdirs w |}.

Record CompletedProcess := Completed { returncode : Z; stderr : string }.

(** [q] lies strictly below the directory [d]. *)
Definition beneath (d q : PurePath) : Prop :=
  root q = root d ∧ parts d `prefix_of` parts q ∧ parts d ≠ parts q.

(** ** [Path.glob]

    A pattern is split at its slashes into segments: [**] stands for any
    number of directories, none included, every other segment for the
    name of one entry.  Names starting with a dot are not special. *)
Inductive glob_segment :=
| Recursive                          (* [**] *)
| Segment (pat : list glob_token).   (* the pattern of one name *)

(** The components [rel] that lead from the starting directory to an
    entry, against the segments. *)
Fixpoint glob_match (pat : list glob_segment) (rel : list string) : bool :=
  match pat with
  | [] => bool_decide (rel = [])
  | Recursive :: pat' =>
      (fix descend (rel : list string) : bool :=
         glob_match pat' rel ||
         match rel with
         | _ :: rel' => descend rel'
         | [] => false
         end) rel
  | Segment p :: pat' =>
      match rel with
      | x :: rel' => fnmatch p x && glob_match pat' rel'
      | [] => false
      end
  end.

(** The order of the walk: the entries of a directory come before
    everything inside its subdirectories, and one subdirectory is
    finished before the next.  The order among the entries of one
    directory is up to the file system; the model takes them by name. *)
Fixpoint walk_le (p q : list string) : bool :=
  match p, q with
  | [], _ => true
  | _ :: _, [] => false
  | [x], [y] => String.leb x y
  | [_], _ :: _ :: _ => true
  | _ :: _ :: _, [_] => false
  | x :: p', y :: q' =>
      if bool_decide (x = y) then walk_le p' q' else String.leb x y
  end.

(** [path.glob(pat)]: the entries below [path] that the segments lead
    to, each spelled as [path] followed by the components of the way, in
    the order of the walk.  The keys of the map are the existing paths. *)
Definition glob (m : gmap string node) (path : PurePath)
    (pat : list glob_segment) : list PurePath :=
  merge_sort (λ p q, Is_true (walk_le (parts p) (parts q)))
    (Path <$> filter (λ k, norm k = k ∧ root (Path k) = root path
                           ∧ parts path `prefix_of` parts (Path k)
                           ∧ glob_match pat
                               (drop (length (parts path)) (parts (Path k)))
                             = true)
                (map_to_list m).*1).

(** [path.rglob(pat)], which is [path.glob('**/' + pat)]. *)
Definition rglob (m : gmap string node) (path : PurePath)
    (pat : list glob_token) : list PurePath :=
  glob m path [Recursive; Segment pat].

(** [shutil.rmtree]: the directory and everything below it. *)
Definition rmtree (d : string) (m : gmap string node) : gmap string node :=
  filter (λ kv, ¬ (kv.1 = norm d ∨ beneath (Path d) (Path kv.1))) m.

(** ** A state and exception monad for the script *)

Definition M (A : Type) : Type := OS → result A * OS.

Definition ret {A} (a : A) : M A := λ w, (Ok a, w).

Definition bind {A B} (m : M A) (k : A → M B) : M B :=
  λ w, match m w with
       | (Ok a, w') => k a w'
       | (Raise e, w') => (Raise e, w')
       end.

Definition lift {A} (r : result A) : M A := λ w, (r, w).

(** [try: body except <catches> as e: handler e]. *)
Definition try_except {A} (catches : exn → bool) (body : M A)
    (handler : exn → M A) : M A :=
  λ w, match body w with
       | (Raise e, w') => if catches e then handler e w' else (Raise e, w')
       | r => r
       end.

Definition Exception : exn → bool := λ _, true.

Global Instance M_ret : MRet M := @ret.
Global Instance M_bind : MBind M := λ A B k m, bind m k.

Fixpoint for_each {A} (l : list A) (body : A → M unit) : M unit :=
  match l with
  | [] => ret tt
  | x :: l' => body x;; for_each l' body
  end.

Definition print (line : string) : M unit :=
  λ w, (Ok tt, {| fs := fs w; stdout := stdout w ++ [line];
                  invoked := invoked w; tmpdirs := tmpdirs w |}).

(** The functions of [os] and [os.path] below look a path up under the
    spelling [pathlib] gives it.  This is how the operating system reads
    an absolute path without [..] components; relative paths, [..] and a
    root of two slashes are not resolved. *)
Definition os_path_exists (p : string) : M bool :=
  λ w, (Ok (bool_decide (is_Some (fs w !! norm p))), w).

Definition os_path_isdir (p : string) : M bool :=
  λ w, (Ok (match fs w !! norm p with
            | Some n => is_dir n
            | None => false
            end), w).

Definition os_path_getsize (p : string) : M N :=
  λ w, match fs w !! norm p with
       | Some n => (Ok (st_size n), w)
       | None => (Raise (Exn FileNotFoundError
                          ("[Errno 2] No such file or directory: '"
                             +:+ p +:+ "'")), w)
       end.

Definition os_remove (p : string) : M unit :=
  λ w, match fs w !! norm p with
       | Some n =>
           if is_dir n then
             (Raise (Exn IsADirectoryError
                       ("[Errno 21] Is a directory: '" +:+ p +:+ "'")), w)
           else (Ok tt, set_fs (delete (norm p)) w)
       | None => (Raise (Exn FileNotFoundError
                          ("[Errno 2] No such file or directory: '"
                             +:+ p +:+ "'")), w)
       end.

(** Python values an [argparse] attribute of this script can hold. *)
Inductive pyval := PyFalse | PyNone | PyStr (s : string).

(** [bool(v)], the test of [if v:]. *)
Definition truthy (v : pyval) : bool :=
  match v with
  | PyFalse | PyNone => false
  | PyStr s => bool_decide (s ≠ "")
  end.

Record Namespace := { directory : string; remove_original_file : pyval }.


(** ** ANSI colours *)

Record ColorTable := { GREEN : string; YELLOW : string; RED : string;
                       BLUE : string; NC : string }.

Definition ESC : string := String "027"%char "".

(** ** The script *)

(** The environment the script runs in: [platform.system()],
    [platform.release()], [os.environ.get('WT_SESSION')], [os.getcwd()];
    what running a command does to the file system and what comes back (a
    completed process or an exception), given the file system and the
    commands run before; the name [tempfile.TemporaryDirectory] picks; the
    clock. *)
Class Env := {
  platform_system : string;
  platform_release : string;
  WT_SESSION : option string;
  getcwd : string;
  exec : gmap string node → list (list string) → list string
         → gmap string node * result CompletedProcess;
  mkdtemp : gmap string node → string;
  time_time : OS → Q
}.

Section Script.

Context {env : Env}.

(** The class [Colors], after the module-level loop that blanks every
    attribute on a Windows console without [WT_SESSION]. *)
Definition Colors : ColorTable :=
  if bool_decide (platform_system = "Windows")
     && negb (bool_decide (default "" WT_SESSION ≠ ""))
  then {| GREEN := ""; YELLOW := ""; RED := ""; BLUE := ""; NC := "" |}
  else {| GREEN := ESC +:+ "[0;32m"; YELLOW := ESC +:+ "[1;33m";
          RED := ESC +:+ "[0;31m"; BLUE := ESC +:+ "[0;34m";
          NC := ESC +:+ "[0m" |}.

Definition print_colored (color message : string) : M unit :=
  print (color +:+ message +:+ NC Colors).

(** [subprocess.run(cmd, stdout=PIPE, stderr=PIPE, ...)]; with
    [check=True] a non-zero exit status raises [CalledProcessError]. *)
Definition subprocess_run (cmd : list string) (check : bool)
  : M CompletedProcess :=
  λ w,
    let '(fs', r) := exec (fs w) (invoked w) cmd in
    let w' := {| fs := fs'; stdout := stdout w;
                 invoked := invoked w ++ [cmd]; tmpdirs := tmpdirs w |} in
    match r with
    | Ok process =>
        if check && negb (returncode process =? 0) then
          (Raise (Exn CalledProcessError
                    ("Command returned non-zero exit status "
                       +:+ Str.of_Z (returncode process) +:+ ".")), w')
        else (Ok process, w')
    | Raise e => (Raise e, w')
    end.

Definition is_tool (name : string) : M bool :=
  try_except is_SubprocessError
    ((if bool_decide (platform_system = "Windows")
      then subprocess_run ["where"; name] true
      else subprocess_run ["which"; name] true);;
     mret true)
    (λ _, mret false).

Definition check_requirements : M bool :=
  let missing_programs : list string := [] in
  t ← is_tool "mplayer";
  let missing_programs :=
    if negb t then missing_programs ++ ["mplayer"] else missing_programs in
  t ← is_tool "ffmpeg";
  let missing_programs :=
    if negb t then missing_programs ++ ["ffmpeg"] else missing_programs in
  if bool_decide (missing_programs ≠ []) then
    print_colored (RED Colors)
      "Error: The following required programs are not installed:";;
    for_each missing_programs (λ program, print ("  - " +:+ program));;
    print_colored (YELLOW Colors)
      "Please install them using your system's package manager:";;
    print_colored (BLUE Colors) "For Windows (using Chocolatey):";;
    print ("  choco install " +:+ Str.join " " missing_programs);;
    print_colored (BLUE Colors) "For macOS (using Homebrew):";;
    print ("  brew install " +:+ Str.join " " missing_programs);;
    print_colored (BLUE Colors) "For Ubuntu/Debian:";;
    print ("  sudo apt-get install " +:+ Str.join " " missing_programs);;
    print (String "010"%char "You can download these programs from:");;
    print "  - MPlayer: http://www.mplayerhq.hu/design7/dload.html";;
    print "  - FFmpeg: https://ffmpeg.org/download.html";;
    mret false
  else mret true.

(** [path.glob('**/*.[aA][vV][iI]')] is [path.rglob('*.[aA][vV][iI]')]. *)
Definition find_avi_files (directory : string) : M (list string) :=
  λ w,
    let path := Path directory in
    let avi_files := rglob (fs w) path avi_pattern in
    (Ok (str <$> avi_files), w).

Definition mplayer_cmd (temp_h264 avi_file : string) : list string :=
  ["mplayer"; "-dumpvideo"; "-dumpfile"; temp_h264; avi_file].

Definition ffmpeg_cmd (temp_h264 output_mp4 : string) : list string :=
  ["ffmpeg"; "-hide_banner"; "-loglevel"; "error";
   "-i"; temp_h264; "-c:v"; "copy"; output_mp4].

(** The three [try] blocks of [convert_avi_to_mp4].  A block yields
    [Some b] when it executes [return b] and [None] when control falls
    through to the next statement. *)
Definition extract_step (filename temp_h264 avi_file : string)
  : M (option bool) :=
  try_except Exception
    (process ← subprocess_run (mplayer_cmd temp_h264 avi_file) false;
     present ← os_path_exists temp_h264;
     if negb (returncode process =? 0) || negb present then
       print_colored (RED Colors)
         ("  Failed to extract video stream from: " +:+ filename);;
       print_colored (RED Colors) ("  Error: " +:+ stderr process);;
       mret (Some false)
     else mret None)
    (λ e,
       print_colored (RED Colors)
         ("  Error running mplayer: " +:+ exn_str e);;
       mret (Some false)).

Definition remux_step (filename temp_h264 output_mp4 : string)
  : M (option bool) :=
  try_except Exception
    (process ← subprocess_run (ffmpeg_cmd temp_h264 output_mp4) false;
     present ← os_path_exists output_mp4;
     if negb (returncode process =? 0) || negb present then
       print_colored (RED Colors)
         ("  Failed to create MP4 file for: " +:+ filename);;
       print_colored (RED Colors) ("  Error: " +:+ stderr process);;
       mret (Some false)
     else mret None)
    (λ e,
       print_colored (RED Colors)
         ("  Error running ffmpeg: " +:+ exn_str e);;
       mret (Some false)).

Definition verify_step (avi_file output_mp4 : string)
    (remove_original_file : pyval) : M bool :=
  try_except Exception
    (size_bytes ← os_path_getsize output_mp4;
     let size_display :=
       format_file_size (inject_Z (Z.of_N size_bytes)) in
     print_colored (GREEN Colors)
       ("  Successfully created: " +:+ output_mp4 +:+ " ("
          +:+ Str.of_option size_display +:+ ")");;
     (if truthy remove_original_file then os_remove avi_file
      else mret tt);;
     mret true)
    (λ e,
       print_colored (RED Colors)
         ("  Error verifying output file: " +:+ exn_str e);;
       mret false).

(** The two paths [convert_avi_to_mp4] derives from its arguments:
    [output_mp4 = str(file_path.with_suffix('.mp4'))] and
    [temp_h264 = os.path.join(temp_dir, f"{base_name}.h264")]. *)
Definition output_mp4_of (avi_file : string) : result string :=
  let file_path := Path avi_file in
  match with_suffix file_path ".mp4" with
  | Ok out => Ok (str out)
  | Raise e => Raise e
  end.

Definition temp_h264_of (temp_dir avi_file : string) : string :=
  let file_path := Path avi_file in
  let base_name := stem file_path in
  os_path_join temp_dir (base_name +:+ ".h264").

Definition convert_avi_to_mp4 (avi_file temp_dir : string)
    (remove_original_file : pyval) : M bool :=
  let file_path := Path avi_file in
  let filename := name file_path in
  output_mp4 ← lift (output_mp4_of avi_file);
  print_colored (YELLOW Colors) ("Processing: " +:+ filename);;
  let temp_h264 := temp_h264_of temp_dir avi_file in
  print_colored (BLUE Colors)
    "  Step 1/3: Extracting video stream with mplayer...";;
  r ← extract_step filename temp_h264 avi_file;
  match r with
  | Some b => mret b
  | None =>
      print_colored (BLUE Colors) "  Step 2/3: Creating MP4 with ffmpeg...";;
      r ← remux_step filename temp_h264 output_mp4;
      match r with
      | Some b => mret b
      | None =>
          print_colored (BLUE Colors) "  Step 3/3: Verifying output file...";;
          verify_step avi_file output_mp4 remove_original_file
      end
  end.

(** [with tempfile.TemporaryDirectory() as temp_dir: body]: the
    directory is removed with its contents however the body ends. *)
Definition with_TemporaryDirectory {A} (body : string → M A) : M A :=
  λ w,
    let temp_dir := mkdtemp (fs w) in
    let w1 := {| fs := <[norm temp_dir := Node true 0]> (fs w);
                 stdout := stdout w; invoked := invoked w;
                 tmpdirs := tmpdirs w ++ [temp_dir] |} in
    let '(r, w2) := body temp_dir w1 in
    (r, set_fs (rmtree temp_dir) w2).

(** The [for avi_file in avi_files] loop with its two counters. *)
Fixpoint batch_loop (avi_files : list string) (temp_dir : string)
    (remove_original_file : pyval) (successful failed : Z) : M (Z * Z) :=
  match avi_files with
  | [] => mret (successful, failed)
  | avi_file :: rest =>
      b ← convert_avi_to_mp4 avi_file temp_dir remove_original_file;
      let '(successful, failed) :=
        if b : bool then (successful + 1, failed)
        else (successful, failed + 1) in
      print "";;
      batch_loop rest temp_dir remove_original_file successful failed
  end.

Definition print_summary (avi_files : list string) (successful failed : Z)
    (elapsed_time : Q) : M unit :=
  print_colored (YELLOW Colors) "Conversion Summary:";;
  print ("  Total AVI files found: "
           +:+ Str.of_Z (Z.of_nat (length avi_files)));;
  print_colored (GREEN Colors)
    ("  Successfully converted: " +:+ Str.of_Z successful);;
  (if 0 <? failed then
     print_colored (RED Colors) ("  Failed conversions: " +:+ Str.of_Z failed)
   else mret tt);;
  print ("  Total time: " +:+ format_2f elapsed_time +:+ " seconds");;
  if 0 <? successful then
    print_colored (GREEN Colors)
      "Conversion complete! Your MP4 files are in the same location as the original AVI files."
  else print_colored (RED Colors) "No files were successfully converted.".

(** [main] from the line after [args = parser.parse_args()]. *)
Definition main (args : Namespace) : M Z :=
  let target_dir := directory args in
  print_colored (YELLOW Colors) "AVI to MP4 Converter - Cross-Platform";;
  print ("Running on: " +:+ platform_system +:+ " " +:+ platform_release);;
  print "";;
  d ← os_path_isdir target_dir;
  if negb d then
    print_colored (RED Colors)
      ("Error: Directory '" +:+ target_dir +:+ "' does not exist.");;
    mret 1
  else
    ok ← check_requirements;
    if negb ok then mret 1
    else
      with_TemporaryDirectory (λ temp_dir,
        print_colored (BLUE Colors)
          ("Created temporary directory: " +:+ temp_dir);;
        print_colored (YELLOW Colors)
          ("Searching for AVI files in: " +:+ target_dir);;
        avi_files ← find_avi_files target_dir;
        if bool_decide (avi_files = []) then
          print_colored (RED Colors)
            "No AVI files found in the specified directory.";;
          mret 0
        else
          print_colored (GREEN Colors)
            ("Found " +:+ Str.of_Z (Z.of_nat (length avi_files))
               +:+ " AVI files to convert.");;
          print "";;
          start_time ← (λ w, (Ok (time_time w), w));
          '(successful, failed) ←
            batch_loop avi_files temp_dir (remove_original_file args) 0 0;
          end_time ← (λ w, (Ok (time_time w), w));
          let elapsed_time := (end_time - start_time)%Q in
          print_summary avi_files successful failed elapsed_time;;
          mret 0).


(** [parser.parse_args()] on the command lines
    [[directory] [--remove_original_file [value]]], where [directory] and
    [value] do not start with a dash.  The option has [nargs='?'],
    [default=False] and no [const]: absent it yields [False], without a
    value [None], with a value that string.  Other command lines ([-h],
    abbreviations, [--opt=value], usage errors) are outside this
    fragment: [None]. *)
Definition is_value (s : string) : bool := negb (Str.starts_with "-" s).

Definition parse_option (rest : list string) : option pyval :=
  match rest with
  | [] => Some PyFalse
  | [o] => if bool_decide (o = "--remove_original_file")
           then Some PyNone else None
  | [o; v] => if bool_decide (o = "--remove_original_file") && is_value v
              then Some (PyStr v) else None
  | _ => None
  end.

Definition parse_args (argv : list string) : option Namespace :=
  match argv with
  | d :: rest =>
      if is_value d then
        v ← parse_option rest;
        Some {| directory := d; remove_original_file := v |}
      else
        v ← parse_option argv;
        Some {| directory := getcwd; remove_original_file := v |}
  | [] => Some {| directory := getcwd; remove_original_file := PyFalse |}
  end.

End Script.

(** ** A concrete environment

    Well-behaved stand-ins for the external programs, used to run the
    script on examples: [which] answers from a list of installed programs,
    [mplayer] writes the dump file unless the input is missing or listed as
    damaged, [ffmpeg] writes the output when its input exists. *)

Module Demo.

Definition is_file (m : gmap string node) (p : string) : bool :=
  match m !! norm p with
  | Some n => negb (is_dir n)
  | None => false
  end.

Definition tools (installed damaged : list string) (m : gmap string node)
    (history : list (list string)) (cmd : list string)
  : gmap string node * result CompletedProcess :=
  match cmd with
  | [prog; tool] =>
      if bool_decide (prog = "which") then
        (m, Ok (Completed (if bool_decide (tool ∈ installed)
                              then 0 else 1) ""))
      else (m, Raise (Exn FileNotFoundError prog))
  | [prog; _; _; out; inp] =>
      if bool_decide (prog = "mplayer") then
        if is_file m inp && negb (bool_decide (inp ∈ damaged)) then
          (<[norm out := Node false 1000]> m, Ok (Completed 0 ""))
        else (m, Ok (Completed 1 ("Failed to open " +:+ inp)))
      else (m, Raise (Exn FileNotFoundError prog))
  | [prog; _; _; _; _; inp; _; _; out] =>
      if bool_decide (prog = "ffmpeg") then
        if is_file m inp then
          (<[norm out := Node false 1536]> m, Ok (Completed 0 ""))
        else (m, Ok (Completed 1 (inp +:+ ": No such file or directory")))
      else (m, Raise (Exn FileNotFoundError prog))
  | _ => (m, Raise (Exn FileNotFoundError (Str.join " " cmd)))
  end.

Definition tmpname (m : gmap string node) : string := "/tmp/tmpk3v9x1".

Definition clock (w : OS) : Q :=
  inject_Z (Z.of_nat (length (invoked w))).

Definition boot (files : list (string * node)) : OS :=
  {| fs := list_to_map files; stdout := []; invoked := [];
     tmpdirs := [] |}.

Definition dir : node := Node true 4096.
Definition file (n : N) : node := Node false n.

(** The script on Linux with both programs installed. *)
Definition linux (installed damaged : list string) : Env :=
  {| platform_system := "Linux"; platform_release := "6.1";
     WT_SESSION := None; getcwd := "/home/user";
     exec := tools installed damaged; mkdtemp := tmpname;
     time_time := clock |}.

Definition run (damaged : list string) (args : Namespace) : M Z :=
  @main (linux ["mplayer"; "ffmpeg"] damaged) args.

Definition videos : OS :=
  boot [("/videos", dir); ("/videos/a.avi", file 5000);
        ("/videos/b.AVI", file 6000); ("/tmp", dir)].

(** Names with and without the extension, at several depths. *)
Definition tree : OS :=
  boot [("/videos", dir); ("/videos/a.AVI", file 10);
        ("/videos/x", dir); ("/videos/x/a.Avi", file 20);
        ("/videos/x/y", dir); ("/videos/x/y/a.avi", file 30);
        ("/videos/b.mp4", file 40); ("/videos/x/avi", file 50);
        ("/videos/x/c.avi.bak", file 60); ("/elsewhere/d.avi", file 70);
        ("/tmp", dir)].

(** A file whose whole name is the extension. *)
Definition hidden : OS :=
  boot [("/videos", dir); ("/videos/.avi", file 100); ("/tmp", dir)].

(** The same base name in two subdirectories. *)
Definition twins : OS :=
  boot [("/videos", dir); ("/videos/x", dir); ("/videos/y", dir);
        ("/videos/x/a.avi", file 100); ("/videos/y/a.avi", file 200);
        ("/tmp", dir)].

End Demo.

(** ** Reference definitions

    Closed forms and predicates the properties below are stated with. *)

Definition unit_index (n : N) : nat :=
  if (n <? 1024)%N then 0%nat
  else if (n <? 1024 ^ 2)%N then 1%nat
  else if (n <? 1024 ^ 3)%N then 2%nat
  else 3%nat.

Definition size_display (n : N) : string :=
  let k := unit_index n in
  format_2f (inject_Z (Z.of_N n) / inject_Z (1024 ^ Z.of_nat k))
    +:+ " " +:+ nth k ["B"; "KB"; "MB"; "GB"] "".

Definition is_digit (c : ascii) : Prop := (48 <= N_of_ascii c <= 57)%N.

Definition two_decimals (s : string) : Prop :=
  ∃ i a b, s = i +:+ "." +:+ String a (String b "") ∧ is_digit a ∧ is_digit b.


(** Tool A failed: non-zero exit status, or no intermediate file afterwards. *)
Definition extraction_fails (fs' : gmap string node)
    (process : CompletedProcess) (temp_h264 : string) : Prop :=
  returncode process ≠ 0 ∨ fs' !! norm temp_h264 = None.

(** The lines the summary of a run shows. *)
Definition summary_lines (C : ColorTable) (total successful failed : Z)
    (elapsed : Q) : list string :=
  [YELLOW C +:+ "Conversion Summary:" +:+ NC C;
   "  Total AVI files found: " +:+ Str.of_Z total;
   GREEN C +:+ ("  Successfully converted: " +:+ Str.of_Z successful) +:+ NC C]
  ++ (if 0 <? failed
      then [RED C +:+ ("  Failed conversions: " +:+ Str.of_Z failed) +:+ NC C]
      else [])
  ++ ["  Total time: " +:+ format_2f elapsed +:+ " seconds";
      if 0 <? successful
      then GREEN C +:+ "Conversion complete! Your MP4 files are in the same location as the original AVI files." +:+ NC C
      else RED C +:+ "No files were successfully converted." +:+ NC C].

(** [s.lower()]. *)
Fixpoint lower_s (s : string) : string :=
  match s with
  | EmptyString => ""
  | String c s' => String (Str.lower c) (lower_s s')
  end.

(** The name ends in a dot and the letters of [ext], in any case. *)
Definition has_extension_ci (ext nm : string) : Prop :=
  ∃ stem e, nm = stem +:+ "." +:+ e ∧ lower_s e = ext.

(** The path with its last four characters, a dot and a three-letter
    extension, replaced by [".mp4"]. *)
Definition replace_ext (p : string) : string :=
  String.substring 0 (String.length p - 4) p +:+ ".mp4".

(** The directory part of [str(p)]: the root and every component but the
    last, each followed by a slash. *)
Fixpoint dirjoin (l : list string) : string :=
  match l with
  | [] => ""
  | x :: l' => x +:+ "/" +:+ dirjoin l'
  end.

(** The command [is_tool] runs to look a program up. *)
Definition lookup_cmd `{Env} (tool : string) : list string :=
  [if bool_decide (platform_system = "Windows") then "where" else "which";
   tool].

(** A lookup that ended, with status 0. *)
Definition lookup_found (r : result CompletedProcess) : bool :=
  match r with
  | Ok process => returncode process =? 0
  | Raise _ => false
  end.


(** What [check_requirements] prints about the programs it misses. *)
Definition install_report (C : ColorTable) (missing : list string)
  : list string :=
  [RED C +:+ "Error: The following required programs are not installed:"
     +:+ NC C]
  ++ ((λ program, "  - " +:+ program) <$> missing)
  ++ [YELLOW C
        +:+ "Please install them using your system's package manager:"
        +:+ NC C;
      BLUE C +:+ "For Windows (using Chocolatey):" +:+ NC C;
      "  choco install " +:+ Str.join " " missing;
      BLUE C +:+ "For macOS (using Homebrew):" +:+ NC C;
      "  brew install " +:+ Str.join " " missing;
      BLUE C +:+ "For Ubuntu/Debian:" +:+ NC C;
      "  sudo apt-get install " +:+ Str.join " " missing;
      String "010"%char "You can download these programs from:";
      "  - MPlayer: http://www.mplayerhq.hu/design7/dload.html";
      "  - FFmpeg: https://ffmpeg.org/download.html"].

(** The state after the three lines [main] prints first. *)
Definition after_banner `{Env} (w : OS) : OS :=
  {| fs := fs w;
     stdout := stdout w
               ++ [YELLOW Colors +:+ "AVI to MP4 Converter - Cross-Platform"
                     +:+ NC Colors;
                   "Running on: " +:+ platform_system +:+ " "
                     +:+ platform_release;
                   ""];
     invoked := invoked w; tmpdirs := tmpdirs w |}.

(** A command line that starts the given program. *)
Definition runs (prog : string) (cmd : list string) : Prop :=
  head cmd = Some prog.

(** The body of the [with tempfile.TemporaryDirectory()] block of [main]. *)
Definition main_body `{Env} (args : Namespace) (temp_dir : string) : M Z :=
  let target_dir := directory args in
  print_colored (BLUE Colors)
    ("Created temporary directory: " +:+ temp_dir);;
  print_colored (YELLOW Colors)
    ("Searching for AVI files in: " +:+ target_dir);;
  avi_files ← find_avi_files target_dir;
  if bool_decide (avi_files = []) then
    print_colored (RED Colors)
      "No AVI files found in the specified directory.";;
    mret 0
  else
    print_colored (GREEN Colors)
      ("Found " +:+ Str.of_Z (Z.of_nat (length avi_files))
         +:+ " AVI files to convert.");;
    print "";;
    start_time ← (λ w, (Ok (time_time w), w));
    '(successful, failed) ←
      batch_loop avi_files temp_dir (remove_original_file args) 0 0;
    end_time ← (λ w, (Ok (time_time w), w));
    let elapsed_time := (end_time - start_time)%Q in
    print_summary avi_files successful failed elapsed_time;;
    mret 0.

(** A path component as [Path] keeps them. *)
Definition good_component (x : string) : Prop :=
  x ≠ "" ∧ x ≠ "." ∧ Str.contains "/" x = false.

Global Instance runs_dec (prog : string) (cmd : list string) :
  Decision (runs prog cmd) :=
  decide (head cmd = Some prog).

(** ** Further stand-ins for the examples *)

(** A Windows console that is not Windows Terminal; the Unix-style
    stand-ins know no [where]. *)
Definition windows_console : Env :=
  {| platform_system := "Windows"; platform_release := "10";
     WT_SESSION := None; getcwd := "/home/user";
     exec := Demo.tools ["mplayer"; "ffmpeg"] []; mkdtemp := Demo.tmpname;
     time_time := Demo.clock |}.

(** Stand-ins of which [ffmpeg] refuses to overwrite an existing output. *)
Definition careful_tools (m : gmap string node)
    (history : list (list string)) (cmd : list string)
  : gmap string node * result CompletedProcess :=
  match cmd with
  | [prog; _; _; _; _; _; _; _; out] =>
      if bool_decide (prog = "ffmpeg")
         && bool_decide (is_Some (m !! norm out))
      then (m, Ok (Completed 1
                     ("File '" +:+ out +:+ "' already exists. Exiting.")))
      else Demo.tools ["mplayer"; "ffmpeg"] [] m history cmd
  | _ => Demo.tools ["mplayer"; "ffmpeg"] [] m history cmd
  end.


(** Linux with the given stand-ins. *)
Definition linux_with
    (tools : gmap string node → list (list string) → list string
             → gmap string node * result CompletedProcess) : Env :=
  {| platform_system := "Linux"; platform_release := "6.1";
     WT_SESSION := None; getcwd := "/home/user";
     exec := tools; mkdtemp := Demo.tmpname; time_time := Demo.clock |}.

(** A folder converted before, and one without videos. *)
Definition converted : OS :=
  Demo.boot [("/videos", Demo.dir); ("/videos/a.avi", Demo.file 5000);
             ("/videos/a.mp4", Demo.file 1536); ("/tmp", Demo.dir)].

Definition no_videos : OS :=
  Demo.boot [("/videos", Demo.dir); ("/videos/notes.txt", Demo.file 12);
             ("/tmp", Demo.dir)].

(** ** The exit status *)

(** Paths the file-system model reads as the operating system does:
    absolute, with the single root [/], and without [..] components
    (empty and [.] components and a trailing slash are dropped by [Path],
    as the operating system ignores them for a directory). *)
Definition plain (d : string) : Prop :=
  root (Path d) = "/" ∧ ".." ∉ parts (Path d).





(** Stand-ins on a machine where the programs in [gone] cannot be
    started: [subprocess.run] raises [FileNotFoundError]. *)
Definition failing_tools (gone : list string) (m : gmap string node)
    (history : list (list string)) (cmd : list string)
  : gmap string node * result CompletedProcess :=
  match cmd with
  | prog :: _ =>
      if bool_decide (prog ∈ gone)
      then (m, Raise (Exn FileNotFoundError
                        ("[Errno 2] No such file or directory: '"
                           +:+ prog +:+ "'")))
      else Demo.tools ["mplayer"; "ffmpeg"] [] m history cmd
  | [] => Demo.tools ["mplayer"; "ffmpeg"] [] m history cmd
  end.

(** ** One file in the loop *)

(** The commands one conversion runs and what it returns: [mplayer]
    alone and [False], or [mplayer] and then [ffmpeg], each with the
    paths of this file. *)
Definition file_run (temp_dir avi_file : string) (b : bool)
    (cmds : list (list string)) : Prop :=
  ∃ out, output_mp4_of avi_file = Ok out
         ∧ (cmds = [mplayer_cmd (temp_h264_of temp_dir avi_file) avi_file]
            ∧ b = false
            ∨ cmds = [mplayer_cmd (temp_h264_of temp_dir avi_file) avi_file;
                      ffmpeg_cmd (temp_h264_of temp_dir avi_file) out]).

(** * Properties *)

(** ** Byte-size formatting *)

Lemma Qltb_lt (x y : Q) : Qltb x y = true ↔ (x < y)%Q.
Proof.
  unfold Qltb. rewrite negb_true_iff, <- not_true_iff_false, Qle_bool_iff.
  split; [apply Qnot_le_lt | apply Qlt_not_le].
Qed.

Lemma Qltb_comp (x x' y y' : Q) : (x == x')%Q → (y == y')%Q → Qltb x y = Qltb x' y'.
Proof. intros Hx Hy. unfold Qltb. by rewrite Hx, Hy. Qed.

Lemma round_half_even_comp (x y : Q) : (x == y)%Q → round_half_even x = round_half_even y.
Proof.
  intros H. unfold round_half_even.
  rewrite (Qfloor_comp _ _ H).
  assert (E : (x - inject_Z (Qfloor y) == y - inject_Z (Qfloor y))%Q) by (by rewrite H).
  by rewrite (Qcompare_comp _ _ E _ _ (Qeq_refl _)).
Qed.

Lemma format_2f_comp (x y : Q) : (x == y)%Q → format_2f x = format_2f y.
Proof.
  intros H. unfold format_2f.
  rewrite (Qltb_comp x y 0 0 H (Qeq_refl _)).
  assert (E : (100 * Qabs x == 100 * Qabs y)%Q) by (by rewrite H).
  by rewrite (round_half_even_comp _ _ E).
Qed.

Lemma format_file_size_unfold (q : Q) :
  format_file_size q =
    if Qltb q 1024 then Some (format_2f q +:+ " B")
    else if Qltb (q / 1024) 1024 then Some (format_2f (q / 1024) +:+ " KB")
    else if Qltb (q / 1024 / 1024) 1024
         then Some (format_2f (q / 1024 / 1024) +:+ " MB")
    else Some (format_2f (q / 1024 / 1024 / 1024) +:+ " GB").
Proof.
  unfold format_file_size, format_file_size_loop.
  repeat match goal with
  | |- context [String.eqb ?a ?b] =>
      let v := eval vm_compute in (String.eqb a b) in
      change (String.eqb a b) with v
  end.
  rewrite !orb_false_r, orb_true_r.
  reflexivity.
Qed.

Lemma inject_Z_pos (d : Z) : 0 < d → (0 < inject_Z d)%Q ∧ ¬ (inject_Z d == 0)%Q.
Proof.
  intros Hd. assert (H : (0 < inject_Z d)%Q) by (change 0%Q with (inject_Z 0); by rewrite <- Zlt_Qlt).
  split; [exact H|]. intros E. rewrite E in H. by apply Qlt_irrefl in H.
Qed.

Lemma Qltb_scaled (z d b : Z) :
  0 < d → Qltb (inject_Z z / inject_Z d) (inject_Z b) = (z <? b * d).
Proof.
  intros Hd. destruct (inject_Z_pos d Hd) as [Hq Hne].
  apply eq_true_iff_eq. rewrite Qltb_lt, Z.ltb_lt, Zlt_Qlt, inject_Z_mult.
  rewrite <- (Qmult_lt_r (inject_Z z / inject_Z d) _ _ Hq).
  rewrite (Qmult_comm (inject_Z z / inject_Z d)), Qmult_div_r by exact Hne.
  reflexivity.
Qed.

Lemma Qdiv_1024 (z d : Z) :
  0 < d → (inject_Z z / inject_Z d / 1024 == inject_Z z / inject_Z (d * 1024))%Q.
Proof.
  intros Hd. rewrite inject_Z_mult.
  destruct (inject_Z_pos d Hd) as [_ Hne].
  field. exact Hne.
Qed.

Lemma app_cons_s (x : ascii) (a b : string) :
  String x a +:+ b = String x (a +:+ b).
Proof. reflexivity. Qed.

Lemma app_nil_l_s (b : string) : "" +:+ b = b.
Proof. reflexivity. Qed.

Lemma app_assoc_s (a b c : string) : (a +:+ b) +:+ c = a +:+ b +:+ c.
Proof.
  induction a as [|x a IH]; [done|]. by rewrite !app_cons_s, IH.
Qed.

Lemma app_nil_r_s (a : string) : a +:+ "" = a.
Proof. induction a as [|x a IH]; [done|]. by rewrite app_cons_s, IH. Qed.

Lemma length_app_s (a b : string) :
  String.length (a +:+ b) = (String.length a + String.length b)%nat.
Proof.
  induction a as [|x a IH]; [done|]. rewrite app_cons_s. simpl. by rewrite IH.
Qed.

Lemma digit_of_N (d : N) :
  (d < 10)%N → ∃ c, Str.of_N d = String c "" ∧ is_digit c.
Proof.
  intros H.
  assert (E : (d = 0 ∨ d = 1 ∨ d = 2 ∨ d = 3 ∨ d = 4 ∨ d = 5 ∨ d = 6
               ∨ d = 7 ∨ d = 8 ∨ d = 9)%N) by lia.
  destruct_or!; subst d; eexists; (split; [reflexivity | vm_compute; split; discriminate]).
Qed.

Lemma format_2f_two_decimals (q : Q) : two_decimals (format_2f q).
Proof.
  unfold format_2f, two_digits.
  set (h := Z.to_N (round_half_even (100 * Qabs q))).
  destruct (digit_of_N ((h mod 100) / 10)) as (a & Ea & Ha).
  { apply N.Div0.div_lt_upper_bound. pose proof (N.mod_upper_bound h 100). lia. }
  destruct (digit_of_N ((h mod 100) mod 10)) as (b & Eb & Hb).
  { apply N.mod_upper_bound. lia. }
  rewrite Ea, Eb.
  exists ((if Qltb q 0 then "-" else "") +:+ Str.of_N (h / 100)), a, b.
  split; [by rewrite app_assoc_s | done].
Qed.

Lemma format_file_size_closed (n : N) :
  format_file_size (inject_Z (Z.of_N n)) = Some (size_display n).
Proof.
  rewrite format_file_size_unfold. unfold size_display, unit_index.
  set (z := Z.of_N n).
  change 1024%Q with (inject_Z 1024).
  assert (E0 : (inject_Z z == inject_Z z / inject_Z 1)%Q) by (field; discriminate).
  rewrite (Qltb_comp _ _ _ _ E0 (Qeq_refl _)), (Qltb_scaled z 1 1024) by lia.
  rewrite (Qltb_scaled z 1024 1024) by lia.
  assert (E2 : (inject_Z z / inject_Z 1024 / inject_Z 1024
                == inject_Z z / inject_Z (1024 * 1024))%Q)
    by (apply (Qdiv_1024 z 1024); lia).
  assert (E3 : (inject_Z z / inject_Z 1024 / inject_Z 1024 / inject_Z 1024
                == inject_Z z / inject_Z (1024 * 1024 * 1024))%Q).
  { change (inject_Z 1024) with 1024%Q at 3. rewrite E2.
    apply (Qdiv_1024 z (1024 * 1024)); lia. }
  rewrite (Qltb_comp _ _ _ _ E2 (Qeq_refl _)), (Qltb_scaled z (1024 * 1024) 1024) by lia.
  rewrite (format_2f_comp _ _ E2), (format_2f_comp _ _ E3).
  destruct (N.ltb_spec n 1024), (Z.ltb_spec z (1024 * 1)); try lia.
  { simpl. f_equal. f_equal. apply format_2f_comp. exact E0. }
  destruct (N.ltb_spec n (1024 ^ 2)), (Z.ltb_spec z (1024 * 1024)); try lia.
  { reflexivity. }
  destruct (N.ltb_spec n (1024 ^ 3)), (Z.ltb_spec z (1024 * (1024 * 1024))); try lia.
  { reflexivity. }
  reflexivity.
Qed.

(** C2.  [format_file_size] maps 0, 1536 and 1572864 to "0.00 B",
    "1.50 KB" and "1.50 MB".  For every byte count [n] below 2^53 (where
    the doubles of the script are exact) the result is [n] divided by 1024
    once per unit step, printed with exactly two decimals and followed by
    the unit of that step; from 1024^3 on the unit is GB and the value is
    [n / 1024^3], however large. *)
Theorem format_file_size_spec (n : N) (Hn : (n < 2 ^ 53)%N) :
  format_file_size 0 = Some "0.00 B"
  ∧ format_file_size (inject_Z 1536) = Some "1.50 KB"
  ∧ format_file_size (inject_Z 1572864) = Some "1.50 MB"
  ∧ format_file_size (inject_Z (Z.of_N n)) = Some (size_display n)
  ∧ two_decimals (format_2f (inject_Z (Z.of_N n)
                               / inject_Z (1024 ^ Z.of_nat (unit_index n))))
  ∧ ((1024 ^ 3 <= n)%N →
     format_file_size (inject_Z (Z.of_N n))
     = Some (format_2f (inject_Z (Z.of_N n) / inject_Z (1024 ^ 3)) +:+ " GB")).
Proof.
  split_and!.
  - vm_compute. reflexivity.
  - vm_compute. reflexivity.
  - vm_compute. reflexivity.
  - apply format_file_size_closed.
  - apply format_2f_two_decimals.
  - intros H. rewrite format_file_size_closed. unfold size_display, unit_index.
    destruct (N.ltb_spec n 1024); [lia|].
    destruct (N.ltb_spec n (1024 ^ 2)); [lia|].
    destruct (N.ltb_spec n (1024 ^ 3)); [lia|]. reflexivity.
Qed.

Lemma format_file_size_spec_witness :
  (6 * 1024 ^ 3 < 2 ^ 53)%N
  ∧ format_file_size (inject_Z (Z.of_N (6 * 1024 ^ 3))) = Some "6.00 GB".
Proof.
  split; [reflexivity|].
  destruct (format_file_size_spec (6 * 1024 ^ 3) eq_refl) as (_ & _ & _ & _ & _ & H).
  rewrite H; [vm_compute; reflexivity | discriminate].
Defined.

(** ** Strings *)

Lemma app_inv_tail_s (a b c : string) : a +:+ c = b +:+ c → a = b.
Proof.
  revert b. induction a as [|x a IH]; intros [|y b] H.
  - done.
  - apply (f_equal String.length) in H.
    rewrite app_cons_s, app_nil_l_s in H. simpl in H.
    rewrite length_app_s in H. lia.
  - apply (f_equal String.length) in H.
    rewrite app_cons_s, app_nil_l_s in H. simpl in H.
    rewrite length_app_s in H. lia.
  - rewrite !app_cons_s in H. injection H as -> H. f_equal. by apply IH.
Qed.

Lemma contains_app (c : ascii) (a b : string) :
  Str.contains c (a +:+ b) = Str.contains c a || Str.contains c b.
Proof.
  induction a as [|x a IH]; [done|].
  rewrite app_cons_s. simpl. rewrite IH. by rewrite orb_assoc.
Qed.

Lemma rpartition_none (c : ascii) (s : string) :
  Str.contains c s = false → Str.rpartition c s = None.
Proof.
  induction s as [|x s IH]; [done|]. simpl. intros H.
  apply orb_false_iff in H as [Hx Hs]. by rewrite (IH Hs), Hx.
Qed.

Lemma rpartition_app (c : ascii) (pre e : string) :
  Str.contains c e = false →
  Str.rpartition c (pre +:+ String c e) = Some (pre, String c e).
Proof.
  intros He. induction pre as [|x pre IH].
  - rewrite app_nil_l_s. simpl. rewrite (rpartition_none c e He).
    by rewrite Ascii.eqb_refl.
  - rewrite app_cons_s. simpl. by rewrite IH.
Qed.

Lemma rpartition_split (c : ascii) (s l r : string) :
  Str.rpartition c s = Some (l, r) → s = l +:+ r.
Proof.
  revert l r. induction s as [|x s IH]; intros l r; [done|]. simpl.
  destruct (Str.rpartition c s) as [[l' r']|].
  - intros [= <- <-]. rewrite app_cons_s. f_equal. by apply IH.
  - destruct (Ascii.eqb x c); [|done]. by intros [= <- <-].
Qed.

Lemma substring_app (a b : string) :
  String.substring 0 (String.length a) (a +:+ b) = a.
Proof.
  induction a as [|x a IH].
  - simpl. by destruct b.
  - rewrite app_cons_s. simpl. by rewrite IH.
Qed.

Lemma split_no_sep (sep : ascii) (s : string) :
  Str.contains sep s = false → Str.split sep s = [s].
Proof.
  induction s as [|x s IH]; [done|]. simpl. intros H.
  apply orb_false_iff in H as [Hx Hs]. by rewrite Hx, (IH Hs).
Qed.

Lemma split_app (sep : ascii) (a b : string) :
  Str.split sep (a +:+ String sep b) = Str.split sep a ++ Str.split sep b.
Proof.
  induction a as [|x a IH].
  - rewrite app_nil_l_s. simpl. by rewrite Ascii.eqb_refl.
  - rewrite app_cons_s. simpl. rewrite IH.
    destruct (Ascii.eqb x sep); [done|].
    destruct (Str.split sep a) as [|h t] eqn:E; [|done].
    by destruct a; simpl in E; repeat case_match.
Qed.

Lemma split_sep_free (sep : ascii) (s x : string) :
  x ∈ Str.split sep s → Str.contains sep x = false.
Proof.
  revert x. induction s as [|a s IH]; intros x.
  - simpl. by intros ->%list_elem_of_singleton.
  - simpl. destruct (Ascii.eqb a sep) eqn:Ea.
    + intros [->|H]%elem_of_cons; [done | by apply IH].
    + destruct (Str.split sep s) as [|h t].
      * intros ->%list_elem_of_singleton. simpl. by rewrite Ea.
      * intros [->|H]%elem_of_cons.
        -- simpl. rewrite Ea. apply IH. left.
        -- apply IH. by right.
Qed.

(** ** Paths *)

Lemma Path_parts_good (s x : string) :
  x ∈ parts (Path s) → x ≠ "" ∧ x ≠ "." ∧ Str.contains "/" x = false.
Proof.
  unfold Path. destruct (splitroot s) as [rt rel]. simpl.
  intros [[H1 H2] H3]%list_elem_of_filter.
  split_and!; [done..|]. by apply (split_sep_free "/" rel).
Qed.

Lemma Path_root (s : string) :
  root (Path s) = "" ∨ root (Path s) = "/" ∨ root (Path s) = "//".
Proof.
  unfold Path, splitroot.
  destruct (Str.starts_with "/" s); [|by left].
  destruct (_ =? 2)%nat; simpl; auto.
Qed.

Lemma join_cons (x : string) (l : list string) :
  l ≠ [] → Str.join "/" (x :: l) = x +:+ "/" +:+ Str.join "/" l.
Proof. by destruct l. Qed.

Lemma join_snoc (init : list string) (nm : string) :
  Str.join "/" (init ++ [nm]) = dirjoin init +:+ nm.
Proof.
  induction init as [|x init IH]; [done|].
  change ((x :: init) ++ [nm]) with (x :: (init ++ [nm])).
  rewrite join_cons by (by destruct init). rewrite IH.
  change (dirjoin (x :: init)) with (x +:+ "/" +:+ dirjoin init).
  by rewrite !app_assoc_s.
Qed.

Lemma str_snoc (rt : string) (init : list string) (nm : string) :
  str {| root := rt; parts := init ++ [nm] |} = (rt +:+ dirjoin init) +:+ nm.
Proof.
  unfold str. simpl. rewrite app_assoc_s, <- join_snoc.
  destruct rt; [|done]. by destruct (init ++ [nm]) eqn:E; [destruct init|].
Qed.

Lemma parts_snoc (p : PurePath) :
  name p ≠ "" → parts p = removelast (parts p) ++ [name p].
Proof.
  unfold name. intros H. apply app_removelast_last.
  intros E. by rewrite E in H.
Qed.

Lemma name_snoc (rt : string) (init : list string) (nm : string) :
  name {| root := rt; parts := init ++ [nm] |} = nm.
Proof. unfold name. simpl. apply last_last. Qed.

Lemma ends_with_app (c : ascii) (a b : string) :
  b ≠ "" → Str.ends_with c (a +:+ b) = Str.ends_with c b.
Proof.
  intros Hb. induction a as [|x a IH]; [done|].
  rewrite app_cons_s. simpl. rewrite IH.
  destruct (a +:+ b) eqn:E; [|done]. by destruct a, b.
Qed.

Lemma dirjoin_ends (l : list string) :
  dirjoin l = "" ∨ Str.ends_with "/" (dirjoin l) = true.
Proof.
  induction l as [|x l IH]; [by left|]. right. simpl.
  rewrite ends_with_app by (by destruct (dirjoin l)).
  destruct IH as [-> | IH]; [done|].
  change ("/" +:+ dirjoin l) with (String "/" (dirjoin l)). simpl.
  by destruct (dirjoin l).
Qed.

Lemma dir_prefix_ends (s : string) (init : list string) :
  root (Path s) +:+ dirjoin init = ""
  ∨ Str.ends_with "/" (root (Path s) +:+ dirjoin init) = true.
Proof.
  destruct (dirjoin_ends init) as [-> | H].
  - rewrite app_nil_r_s. destruct (Path_root s) as [-> | [-> | ->]]; auto.
  - right. rewrite ends_with_app; [done|]. intros E. by rewrite E in H.
Qed.

Lemma lower_not_dot (c : ascii) :
  Ascii.eqb (Str.lower c) "." = Ascii.eqb c ".".
Proof.
  unfold Str.lower.
  destruct ((65 <=? N_of_ascii c)%N && (N_of_ascii c <=? 90)%N) eqn:E;
    [|done].
  apply andb_true_iff in E as [E1%N.leb_le E2%N.leb_le].
  transitivity false; [|symmetry]; apply Ascii.eqb_neq; intros H;
    apply (f_equal N_of_ascii) in H.
  - rewrite N_ascii_embedding in H by lia. simpl in H. lia.
  - simpl in H. lia.
Qed.

Lemma lower_s_facts (e : string) :
  Str.contains "." (lower_s e) = Str.contains "." e
  ∧ String.length (lower_s e) = String.length e.
Proof.
  induction e as [|c e [IH1 IH2]]; [done|]. simpl.
  by rewrite lower_not_dot, IH1, IH2.
Qed.

(** *** [Path] of a directory prefix followed by one component *)

Lemma starts_with_contains (c : ascii) (s : string) :
  Str.contains c s = false → Str.starts_with c s = false.
Proof. destruct s as [|x s]; [done|]. simpl. by intros [? ?]%orb_false_iff. Qed.

Lemma lstrip_id (c : ascii) (s : string) :
  Str.starts_with c s = false → Str.lstrip c s = s.
Proof. destruct s as [|x s]; [done|]. simpl. by intros ->. Qed.

Lemma lstrip_app (c : ascii) (a b : string) :
  Str.lstrip c a ≠ "" ∨ Str.starts_with c b = false →
  Str.lstrip c (a +:+ b) = Str.lstrip c a +:+ b.
Proof.
  induction a as [|x a IH]; intros H.
  - destruct H as [H|H]; [done|]. by rewrite app_nil_l_s, lstrip_id.
  - rewrite app_cons_s. simpl in *. destruct (Ascii.eqb x c); [by apply IH|].
    by rewrite app_cons_s.
Qed.

Lemma lstrip_empty (c : ascii) (s : string) :
  Str.lstrip c s = "" → s = "" ∨ Str.ends_with c s = true.
Proof.
  induction s as [|x s IH]; [by left|]. simpl.
  destruct (Ascii.eqb x c) eqn:E; [|done]. intros H. right.
  destruct (IH H) as [-> | Hs]; [done|]. by destruct s.
Qed.

Lemma lstrip_ends (c : ascii) (s : string) :
  Str.ends_with c s = true →
  Str.lstrip c s = "" ∨ Str.ends_with c (Str.lstrip c s) = true.
Proof.
  induction s as [|x s IH]; [done|]. intros H. simpl.
  destruct (Ascii.eqb x c) eqn:E; [|by right].
  destruct s as [|y s]; [by left|]. by apply IH.
Qed.

Lemma ends_with_inv (c : ascii) (s : string) :
  Str.ends_with c s = true → ∃ s', s = s' +:+ String c "".
Proof.
  induction s as [|x s IH]; [done|]. destruct s as [|y s].
  - simpl. intros ->%Ascii.eqb_eq. by exists "".
  - intros H. destruct (IH H) as [s' ->]. by exists (String x s').
Qed.

Lemma splitroot_app (d c : string) :
  Str.lstrip "/" d ≠ "" ∨ Str.starts_with "/" c = false →
  splitroot (d +:+ c) = ((splitroot d).1, (splitroot d).2 +:+ c).
Proof.
  intros H. unfold splitroot. destruct d as [|x d].
  - destruct H as [H|H]; [done|]. by rewrite app_nil_l_s, H.
  - rewrite app_cons_s.
    change (Str.starts_with "/" (String x (d +:+ c)))
      with (Str.starts_with "/" (String x d)).
    destruct (Str.starts_with "/" (String x d)); [|reflexivity].
    rewrite <- !app_cons_s, (lstrip_app "/" _ c H), !length_app_s.
    replace (String.length (String x d) + String.length c
             - (String.length (Str.lstrip "/" (String x d)) + String.length c))%nat
      with (String.length (String x d)
            - String.length (Str.lstrip "/" (String x d)))%nat by lia.
    by destruct (_ =? 2)%nat.
Qed.

Lemma filter_split_slash (r : string) :
  filter (λ x, x ≠ "" ∧ x ≠ ".") (Str.split "/" (r +:+ "/"))
  = filter (λ x, x ≠ "" ∧ x ≠ ".") (Str.split "/" r).
Proof.
  change (r +:+ "/") with (r +:+ String "/" "").
  rewrite split_app, filter_app. simpl.
  rewrite filter_cons_False by (by intros [? ?]).
  by rewrite filter_nil, app_nil_r.
Qed.

Lemma filter_split_child (r c : string) :
  r = "" ∨ Str.ends_with "/" r = true →
  c ≠ "" → c ≠ "." → Str.contains "/" c = false →
  filter (λ x, x ≠ "" ∧ x ≠ ".") (Str.split "/" (r +:+ c))
  = filter (λ x, x ≠ "" ∧ x ≠ ".") (Str.split "/" r) ++ [c].
Proof.
  intros Hr H1 H2 H3. destruct Hr as [-> | Hr].
  - rewrite app_nil_l_s, (split_no_sep "/" c H3). simpl.
    by rewrite filter_cons_True, !filter_nil.
  - destruct (ends_with_inv _ _ Hr) as [r' ->].
    rewrite app_assoc_s. rewrite app_cons_s, app_nil_l_s.
    rewrite filter_split_slash, split_app, filter_app.
    rewrite (split_no_sep "/" c H3).
    by rewrite filter_cons_True, filter_nil.
Qed.

Lemma splitroot_rel_ends (d : string) :
  d = "" ∨ Str.ends_with "/" d = true →
  (splitroot d).2 = "" ∨ Str.ends_with "/" (splitroot d).2 = true.
Proof.
  intros [-> | H]; [by left|]. unfold splitroot.
  destruct (Str.starts_with "/" d); [|by right].
  destruct (_ =? 2)%nat; simpl; by apply lstrip_ends.
Qed.

Lemma Path_prefix_child (d c : string) :
  d = "" ∨ Str.ends_with "/" d = true →
  c ≠ "" → c ≠ "." → Str.contains "/" c = false →
  Path (d +:+ c)
  = {| root := root (Path d); parts := parts (Path d) ++ [c] |}.
Proof.
  intros Hd H1 H2 H3. unfold Path.
  rewrite splitroot_app by (right; by apply starts_with_contains).
  pose proof (splitroot_rel_ends d Hd) as Hr.
  destruct (splitroot d) as [rt r]. simpl in *. f_equal.
  by apply filter_split_child.
Qed.

Lemma Path_trailing_slash (d : string) :
  d ≠ "" → Str.ends_with "/" d = false → Path (d +:+ "/") = Path d.
Proof.
  intros H1 H2. unfold Path. rewrite splitroot_app.
  - destruct (splitroot d) as [rt r]. simpl. f_equal.
    apply filter_split_slash.
  - left. intros [? | E]%lstrip_empty; [done|]. by rewrite E in H2.
Qed.

Lemma Path_child (d c : string) :
  c ≠ "" → c ≠ "." → Str.contains "/" c = false →
  Path (os_path_join d c)
  = {| root := root (Path d); parts := parts (Path d) ++ [c] |}.
Proof.
  intros H1 H2 H3. unfold os_path_join.
  rewrite (starts_with_contains "/" c H3).
  destruct (bool_decide_reflect (d = "")) as [-> | Hd]; simpl.
  - apply Path_prefix_child; auto.
  - destruct (Str.ends_with "/" d) eqn:E.
    + apply Path_prefix_child; auto.
    + rewrite <- app_assoc_s, <- (Path_trailing_slash d Hd E).
      apply Path_prefix_child; auto. right. by rewrite ends_with_app.
Qed.

Lemma name_slash_free (s : string) :
  Str.contains "/" (name (Path s)) = false.
Proof.
  destruct (decide (name (Path s) = "")) as [-> | H]; [done|].
  apply (Path_parts_good s). rewrite (parts_snoc _ H).
  apply elem_of_app. right. by apply list_elem_of_singleton.
Qed.

Lemma stem_good (s : string) :
  name (Path s) ≠ "" →
  stem (Path s) ≠ "" ∧ Str.contains "/" (stem (Path s)) = false.
Proof.
  intros H. pose proof (name_slash_free s) as Hs. unfold stem.
  destruct (Str.rpartition "." (name (Path s))) as [[l r]|] eqn:E; [|done].
  destruct (bool_decide_reflect (l ≠ "")) as [Hl|Hl]; simpl; [|done].
  destruct (1 <? String.length r)%nat; [|done]. split; [done|].
  apply rpartition_split in E. rewrite E, contains_app in Hs.
  by apply orb_false_iff in Hs as [? ?].
Qed.

Lemma dump_name_good (st : string) :
  Str.contains "/" st = false →
  st +:+ ".h264" ≠ "" ∧ st +:+ ".h264" ≠ "."
  ∧ Str.contains "/" (st +:+ ".h264") = false.
Proof.
  intros H. split_and!.
  - intros E. apply (f_equal String.length) in E.
    rewrite length_app_s in E. simpl in E. lia.
  - intros E. apply (f_equal String.length) in E.
    rewrite length_app_s in E. simpl in E. lia.
  - by rewrite contains_app, H.
Qed.

(** ** Patterns *)

Lemma fnmatch_star (pat : list glob_token) (s : string) :
  fnmatch (Star :: pat) s = true
  ↔ ∃ a b, s = a +:+ b ∧ fnmatch pat b = true.
Proof.
  induction s as [|x s IH].
  - simpl. rewrite orb_false_r. split.
    + intros H. by exists "", "".
    + intros (a & b & E & H). destruct a; [|done].
      rewrite app_nil_l_s in E. by subst b.
  - change (fnmatch (Star :: pat) (String x s))
      with (fnmatch pat (String x s) || fnmatch (Star :: pat) s).
    rewrite orb_true_iff, IH. split.
    + intros [H | (a & b & -> & H)].
      * by exists "", (String x s).
      * by exists (String x a), b.
    + intros (a & b & E & H). destruct a as [|y a].
      * rewrite app_nil_l_s in E. subst b. by left.
      * rewrite app_cons_s in E. injection E as -> ->. right. eauto.
Qed.

Lemma lower_letter (c l u : ascii) :
  (97 <= N_of_ascii l <= 122)%N →
  N_of_ascii u = (N_of_ascii l - 32)%N →
  Str.lower c = l ↔ c = l ∨ c = u.
Proof.
  intros Hl Hu. unfold Str.lower.
  destruct ((65 <=? N_of_ascii c)%N && (N_of_ascii c <=? 90)%N) eqn:E.
  - apply andb_true_iff in E as [E1%N.leb_le E2%N.leb_le]. split.
    + intros H. right. apply (f_equal N_of_ascii) in H.
      rewrite N_ascii_embedding in H by lia.
      rewrite <- (ascii_N_embedding c), <- (ascii_N_embedding u).
      f_equal. lia.
    + intros [-> | ->]; [lia|].
      rewrite <- (ascii_N_embedding l). f_equal. lia.
  - apply andb_false_iff in E. split.
    + by left.
    + intros [-> | ->]; [done|].
      destruct E as [E%N.leb_gt | E%N.leb_gt]; lia.
Qed.

Lemma elem_of_pair {A} (x a b : A) : x ∈ [a; b] ↔ x = a ∨ x = b.
Proof. rewrite !elem_of_cons, elem_of_nil. tauto. Qed.

Lemma fnmatch_avi_iff (nm : string) :
  fnmatch avi_pattern nm = true ↔ has_extension_ci "avi" nm.
Proof.
  unfold avi_pattern, has_extension_ci. rewrite fnmatch_star. split.
  - intros (pre & b & -> & H).
    destruct b as [|d [|a [|v [|i [|? ?]]]]]; simpl in H;
      repeat (apply andb_true_iff in H as [? H]); try done.
    apply Ascii.eqb_eq in H0 as ->.
    exists pre, (String a (String v (String i ""))). split; [done|].
    simpl. f_equal; [|f_equal; [|f_equal]].
    + apply (lower_letter a "a" "A"); [simpl; lia | done |].
      apply bool_decide_eq_true in H1. by apply elem_of_pair.
    + apply (lower_letter v "v" "V"); [simpl; lia | done |].
      apply bool_decide_eq_true in H2. by apply elem_of_pair.
    + apply (lower_letter i "i" "I"); [simpl; lia | done |].
      apply bool_decide_eq_true in H3. by apply elem_of_pair.
  - intros (pre & e & -> & H). exists pre, ("." +:+ e). split; [done|].
    destruct e as [|a [|v [|i [|? ?]]]]; try done.
    simpl in H. injection H as Ha Hv Hi.
    apply (lower_letter a "a" "A") in Ha; [|simpl; lia | done].
    apply (lower_letter v "v" "V") in Hv; [|simpl; lia | done].
    apply (lower_letter i "i" "I") in Hi; [|simpl; lia | done].
    rewrite app_cons_s, app_nil_l_s. simpl.
    rewrite !andb_true_iff, !bool_decide_eq_true, !elem_of_pair. done.
Qed.

(** ** Path objects and their spelling *)

Lemma app_inv_head_s (a b c : string) : a +:+ b = a +:+ c → b = c.
Proof.
  induction a as [|x a IH]; [done|]. rewrite !app_cons_s.
  intros [= H]. by apply IH.
Qed.

Lemma dirjoin_snoc (ps : list string) (x : string) :
  dirjoin (ps ++ [x]) = dirjoin ps +:+ x +:+ "/".
Proof.
  induction ps as [|y ps IH]; simpl.
  - by rewrite app_nil_r_s.
  - by rewrite IH, !app_assoc_s.
Qed.

Lemma Path_dir_prefix (r : string) (ps : list string) :
  r = "" ∨ r = "/" ∨ r = "//" →
  Forall good_component ps →
  ps ≠ [] ∨ r ≠ "" →
  Path (r +:+ dirjoin ps) = {| root := r; parts := ps |}.
Proof.
  intros Hr Hps. induction ps as [|x ps IH] using rev_ind; intros Hne.
  - simpl. rewrite app_nil_r_s.
    destruct Hne as [|Hne]; [done|].
    destruct Hr as [-> | [-> | ->]]; [done | reflexivity | reflexivity].
  - apply Forall_app in Hps as [Hps [(H1 & H2 & H3) _]%Forall_cons].
    rewrite dirjoin_snoc, <- !app_assoc_s.
    assert (E : Path ((r +:+ dirjoin ps) +:+ x)
                = {| root := r; parts := ps ++ [x] |}).
    { destruct (decide (ps = [] ∧ r = "")) as [[-> ->]|Hd].
      - simpl. rewrite app_nil_l_s.
        by rewrite <- (app_nil_l_s x), Path_prefix_child by auto.
      - rewrite Path_prefix_child; [|
          destruct (dirjoin_ends ps) as [E|E];
          [rewrite E, app_nil_r_s;
           destruct Hr as [-> | [-> | ->]]; auto
          |right; rewrite ends_with_app; [done|by intros E'; rewrite E' in E]]
          | done..].
        rewrite IH; [done | done |].
        destruct ps; [right|left]; [|done]. intros ->. by apply Hd. }
    rewrite Path_trailing_slash; [exact E | |].
    + intros E'. apply (f_equal String.length) in E'.
      rewrite !length_app_s in E'. destruct x; [done|]. simpl in E'. lia.
    + rewrite ends_with_app by done.
      clear -H1 H3. induction x as [|a x IHx]; [done|].
      simpl in *. apply orb_false_iff in H3 as [Ha Hx].
      destruct x; [done|]. by apply IHx.
Qed.

Lemma Path_good (s : string) : Forall good_component (parts (Path s)).
Proof. apply Forall_forall. intros x Hx. by apply Path_parts_good in Hx. Qed.

(** Parsing the spelling of a path gives the path again. *)
Lemma Path_str_good (r : string) (ps : list string) :
  r = "" ∨ r = "/" ∨ r = "//" →
  Forall good_component ps →
  Path (str {| root := r; parts := ps |}) = {| root := r; parts := ps |}.
Proof.
  intros Hr Hg.
  destruct ps as [|x ps _] using rev_ind.
  - destruct Hr as [-> | [-> | ->]]; reflexivity.
  - rewrite str_snoc.
    apply Forall_app in Hg as [Hg [(H1 & H2 & H3) _]%Forall_cons].
    destruct (decide (ps = [] ∧ r = "")) as [[-> ->]|Hd].
    + simpl. rewrite app_nil_l_s.
      by rewrite <- (app_nil_l_s x), Path_prefix_child by auto.
    + rewrite Path_prefix_child; [| | done..].
      * rewrite Path_dir_prefix; [done | done | done |].
        destruct ps; [right|left]; [|done]. intros ->. by apply Hd.
      * destruct (dirjoin_ends ps) as [E|E].
        -- rewrite E, app_nil_r_s. destruct Hr as [-> | [-> | ->]]; auto.
        -- right. rewrite ends_with_app; [done|].
           intros E'. by rewrite E' in E.
Qed.

Lemma Path_str (s : string) : Path (str (Path s)) = Path s.
Proof.
  pose proof (Path_good s) as Hg. pose proof (Path_root s) as Hr.
  destruct (Path s) as [r ps]. by apply Path_str_good.
Qed.

Lemma norm_idem (s : string) : norm (norm s) = norm s.
Proof. unfold norm. by rewrite Path_str. Qed.

(** ** Discovery *)

Lemma elem_of_keys (m : gmap string node) (k : string) :
  k ∈ (map_to_list m).*1 ↔ is_Some (m !! k).
Proof.
  rewrite list_elem_of_fmap. split.
  - intros ([k' n] & -> & H). apply elem_of_map_to_list in H. by exists n.
  - intros [n H]. exists (k, n). split; [done|]. by apply elem_of_map_to_list.
Qed.

Lemma glob_match_rglob (pat : list glob_token) (rel : list string) :
  glob_match [Recursive; Segment pat] rel = true
  ↔ ∃ dirs nm, rel = dirs ++ [nm] ∧ fnmatch pat nm = true.
Proof.
  induction rel as [|x rel IH].
  - simpl. split; [done|]. intros (dirs & nm & E & _). by destruct dirs.
  - change (glob_match [Recursive; Segment pat] (x :: rel))
      with (fnmatch pat x && bool_decide (rel = [])
            || glob_match [Recursive; Segment pat] rel).
    rewrite orb_true_iff, andb_true_iff, bool_decide_eq_true, IH. split.
    + intros [[H ->] | (dirs & nm & -> & H)].
      * by exists [], x.
      * by exists (x :: dirs), nm.
    + intros (dirs & nm & E & H). destruct dirs as [|d dirs].
      * injection E as -> ->. by left.
      * injection E as -> ->. right. eauto.
Qed.

Lemma elem_of_glob (m : gmap string node) (path : PurePath)
    (pat : list glob_segment) (f : string) :
  f ∈ str <$> glob m path pat
  ↔ is_Some (m !! f) ∧ norm f = f ∧ root (Path f) = root path
    ∧ ∃ rel, parts (Path f) = parts path ++ rel ∧ glob_match pat rel = true.
Proof.
  unfold glob. rewrite merge_sort_Permutation.
  rewrite <- list_fmap_compose, list_elem_of_fmap. split.
  - intros (k & -> & H).
    apply list_elem_of_filter in H as [(Hn & Hr & Hp & Hm) Hk].
    apply elem_of_keys in Hk. simpl. fold (norm k). rewrite Hn.
    split_and!; [done | done | done |].
    exists (drop (length (parts path)) (parts (Path k))). split; [|done].
    destruct Hp as [rel' ->]. by rewrite drop_app_length.
  - intros (Hk & Hn & Hr & rel & Hp & Hm). exists f.
    split; [by simpl; fold (norm f)|].
    apply list_elem_of_filter. split; [|by apply elem_of_keys].
    split_and!; [done | done | by exists rel |].
    by rewrite Hp, drop_app_length.
Qed.

Lemma elem_of_discovered (m : gmap string node) (path : PurePath)
    (pat : list glob_token) (f : string) :
  f ∈ str <$> rglob m path pat
  ↔ is_Some (m !! f) ∧ norm f = f ∧ beneath path (Path f)
    ∧ fnmatch pat (name (Path f)) = true.
Proof.
  unfold rglob. rewrite elem_of_glob. unfold beneath, name. split.
  - intros (Hk & Hn & Hr & rel & Hp & Hm).
    apply glob_match_rglob in Hm as (dirs & nm & -> & Hm).
    split_and!; [done | done | done | by exists (dirs ++ [nm]) | |].
    + rewrite Hp. intros E. apply (f_equal length) in E.
      rewrite !length_app in E. simpl in E. lia.
    + by rewrite Hp, app_assoc, last_last.
  - intros (Hk & Hn & (Hr & [rel Hp] & Hne) & Hm).
    split_and!; [done | done | done |]. exists rel. split; [done|].
    apply glob_match_rglob.
    destruct rel as [|x rel _] using rev_ind.
    + by rewrite app_nil_r in Hp.
    + exists rel, x. split; [done|].
      by rewrite Hp, app_assoc, last_last in Hm.
Qed.

Lemma fnmatch_avi_named (nm : string) :
  fnmatch avi_pattern nm = true → nm ≠ "".
Proof. intros H ->. vm_compute in H. discriminate. Qed.

(** ** The monad *)

Ltac unfold_monad :=
  unfold mbind, M_bind, mret, M_ret, bind, ret, lift in *.

Ltac run_prints :=
  unfold_monad; unfold print_colored, print in *; simpl in *.

Section ScriptFacts.

Context {env : Env}.

Lemma main_missing_directory (args : Namespace) (w : OS) :
  (os_path_isdir (directory args) w).1 = Ok false →
  ∃ w', main args w = (Ok 1, w')
        ∧ tmpdirs w' = tmpdirs w
        ∧ invoked w' = invoked w
        ∧ fs w' = fs w.
Proof.
  intros H. unfold main. run_prints.
  unfold os_path_isdir in *. simpl in *.
  injection H as H. rewrite H. simpl. eauto.
Qed.

Lemma with_suffix_mp4 (p : PurePath) :
  with_suffix p ".mp4" =
    if bool_decide (name p = "") then
      Raise (Exn ValueError
               ("PosixPath('" +:+ str p +:+ "') has an empty name"))
    else
      Ok {| root := root p;
            parts := removelast (parts p)
                     ++ [(if bool_decide (suffix p = "") then name p
                          else String.substring 0
                                 (String.length (name p)
                                  - String.length (suffix p)) (name p))
                         +:+ ".mp4"] |}.
Proof.
  unfold with_suffix.
  change (Str.contains "/" ".mp4") with false.
  change (bool_decide (".mp4" ≠ "") && negb (Str.starts_with "." ".mp4")
          || bool_decide (".mp4" = ".")) with false.
  cbv iota. destruct (bool_decide (name p = "")); [done|].
  by destruct (bool_decide (suffix p = "")).
Qed.

Lemma output_mp4_of_named (avi_file : string) :
  name (Path avi_file) ≠ "" → ∃ out, output_mp4_of avi_file = Ok out.
Proof.
  intros H. unfold output_mp4_of. rewrite with_suffix_mp4.
  rewrite bool_decide_eq_false_2 by done. eauto.
Qed.


Lemma extract_step_total (filename temp_h264 avi_file : string) (w : OS) :
  ∃ r w', extract_step filename temp_h264 avi_file w = (Ok r, w').
Proof.
  unfold extract_step, try_except, subprocess_run, os_path_exists.
  run_prints.
  destruct (exec _ _ _) as [fs' [p|e]]; simpl; [|eauto].
  destruct (negb _ || negb _); simpl; eauto.
Qed.

Lemma remux_step_total (filename temp_h264 output_mp4 : string) (w : OS) :
  ∃ r w', remux_step filename temp_h264 output_mp4 w = (Ok r, w').
Proof.
  unfold remux_step, try_except, subprocess_run, os_path_exists.
  run_prints.
  destruct (exec _ _ _) as [fs' [p|e]]; simpl; [|eauto].
  destruct (negb _ || negb _); simpl; eauto.
Qed.

Lemma verify_step_total (avi_file output_mp4 : string) (flag : pyval)
    (w : OS) :
  ∃ b w', verify_step avi_file output_mp4 flag w = (Ok b, w').
Proof.
  unfold verify_step, try_except, os_path_getsize, os_remove.
  run_prints.
  destruct (fs w !! norm output_mp4) as [n|]; simpl; [|eauto].
  destruct (truthy flag); simpl; [|eauto].
  destruct (fs w !! norm avi_file) as [n'|]; simpl; [|eauto].
  destruct (is_dir n'); simpl; eauto.
Qed.

Lemma convert_avi_to_mp4_total (avi_file temp_dir : string) (flag : pyval)
    (w : OS) :
  name (Path avi_file) ≠ "" →
  ∃ b w', convert_avi_to_mp4 avi_file temp_dir flag w = (Ok b, w').
Proof.
  intros Hname. destruct (output_mp4_of_named avi_file Hname) as [out Hout].
  unfold convert_avi_to_mp4. unfold_monad. rewrite Hout.
  unfold print_colored at 1 2. unfold print. cbv beta iota.
  match goal with |- context [extract_step ?a ?b ?c ?w0] =>
    destruct (extract_step_total a b c w0) as ([b1|] & w1 & ->) end;
    [eauto|].
  unfold print_colored at 1. unfold print. cbv beta iota.
  match goal with |- context [remux_step ?a ?b ?c ?w0] =>
    destruct (remux_step_total a b c w0) as ([b2|] & w2 & ->) end;
    [eauto|].
  unfold print_colored at 1. unfold print. cbv beta iota.
  apply verify_step_total.
Qed.

(** C8.  For an input that names a file, [convert_avi_to_mp4] always
    returns a boolean and never raises, whatever the two programs do
    (writing to the terminal is taken to succeed).  An exception from
    the [mplayer] call, or from the [ffmpeg] call after a good
    extraction, is caught in the function: it prints the message of the
    exception and returns [False]. *)
Theorem tool_exceptions_are_caught
    (avi_file temp_dir : string) (flag : pyval) (w : OS) :
  name (Path avi_file) ≠ "" →
  let temp_h264 := temp_h264_of temp_dir avi_file in
  (∃ b w', convert_avi_to_mp4 avi_file temp_dir flag w = (Ok b, w'))
  ∧ (∀ fs1 e,
       exec (fs w) (invoked w) (mplayer_cmd temp_h264 avi_file)
         = (fs1, Raise e) →
       ∃ w', convert_avi_to_mp4 avi_file temp_dir flag w = (Ok false, w')
             ∧ last (stdout w')
               = Some (RED Colors +:+ ("  Error running mplayer: "
                                         +:+ exn_str e) +:+ NC Colors)
             ∧ invoked w'
               = invoked w ++ [mplayer_cmd temp_h264 avi_file])
  ∧ (∀ out fs1 process fs2 e,
       output_mp4_of avi_file = Ok out →
       exec (fs w) (invoked w) (mplayer_cmd temp_h264 avi_file)
         = (fs1, Ok process) →
       ¬ extraction_fails fs1 process temp_h264 →
       exec fs1 (invoked w ++ [mplayer_cmd temp_h264 avi_file])
         (ffmpeg_cmd temp_h264 out) = (fs2, Raise e) →
       ∃ w', convert_avi_to_mp4 avi_file temp_dir flag w = (Ok false, w')
             ∧ last (stdout w')
               = Some (RED Colors +:+ ("  Error running ffmpeg: "
                                         +:+ exn_str e) +:+ NC Colors)
             ∧ invoked w'
               = invoked w ++ [mplayer_cmd temp_h264 avi_file;
                               ffmpeg_cmd temp_h264 out]).
Proof.
  intros Hname temp_h264. split_and!.
  - by apply convert_avi_to_mp4_total.
  - intros fs1 e Hexec.
    destruct (output_mp4_of_named avi_file Hname) as [out Hout].
    unfold convert_avi_to_mp4. unfold_monad. rewrite Hout.
    unfold extract_step, try_except, subprocess_run.
    run_prints. fold temp_h264. rewrite Hexec. simpl.
    eexists. split_and!; [reflexivity | | reflexivity].
    simpl. by rewrite last_snoc.
  - intros out fs1 process fs2 e Hout Hexec Hgood Hexec2.
    unfold convert_avi_to_mp4. unfold_monad. rewrite Hout.
    unfold extract_step, remux_step, try_except, subprocess_run,
      os_path_exists.
    run_prints. fold temp_h264. rewrite Hexec. simpl.
    assert (E : negb (returncode process =? 0)
                || negb (bool_decide (is_Some (fs1 !! norm temp_h264)))
                = false).
    { apply orb_false_iff. unfold extraction_fails in Hgood.
      split; apply negb_false_iff.
      - apply Z.eqb_eq. destruct (decide (returncode process = 0)); tauto.
      - apply bool_decide_eq_true_2.
        destruct (fs1 !! norm temp_h264) eqn:El; [eauto|tauto]. }
    rewrite E. simpl. rewrite Hexec2. simpl.
    eexists. split_and!; [reflexivity | | ].
    + simpl. by rewrite last_snoc.
    + simpl. by rewrite <- app_assoc.
Qed.

(** *** The tool check sees only the file system and the command history *)

Lemma is_tool_frame (tool : string) (w w0 : OS) :
  fs w0 = fs w → invoked w0 = invoked w →
  (is_tool tool w0).1 = (is_tool tool w).1
  ∧ fs (is_tool tool w0).2 = fs (is_tool tool w).2
  ∧ invoked (is_tool tool w0).2 = invoked (is_tool tool w).2
  ∧ tmpdirs (is_tool tool w0).2 = tmpdirs w0
  ∧ stdout (is_tool tool w0).2 = stdout w0.
Proof.
  intros Hfs Hinv. unfold is_tool, try_except, subprocess_run. unfold_monad.
  destruct (bool_decide (platform_system = "Windows")); simpl;
    rewrite Hfs, Hinv;
    destruct (exec _ _ _) as [m [p|e]]; simpl;
    try destruct (negb (returncode p =? 0)); simpl;
    try destruct (is_SubprocessError e); simpl; done.
Qed.

(** What the check of one program amounts to: the lookup command ends
    with status 0. *)
Lemma is_tool_lookup (tool : string) (w : OS) :
  (is_tool tool w).1
  = match (exec (fs w) (invoked w)
             [if bool_decide (platform_system = "Windows")
              then "where" else "which"; tool]).2 with
    | Ok process => Ok (returncode process =? 0)
    | Raise e => if is_SubprocessError e then Ok false else Raise e
    end.
Proof.
  unfold is_tool, try_except, subprocess_run. unfold_monad.
  destruct (bool_decide (platform_system = "Windows")); simpl;
    destruct (exec _ _ _) as [m [p|e]]; simpl;
    try destruct (returncode p =? 0); simpl;
    try destruct (is_SubprocessError e); simpl; done.
Qed.

Lemma is_tool_run (tool : string) (w : OS) :
  is_tool tool w
  = (match (exec (fs w) (invoked w) (lookup_cmd tool)).2 with
     | Ok process => Ok (returncode process =? 0)
     | Raise e => if is_SubprocessError e then Ok false else Raise e
     end,
     {| fs := (exec (fs w) (invoked w) (lookup_cmd tool)).1;
        stdout := stdout w;
        invoked := invoked w ++ [lookup_cmd tool];
        tmpdirs := tmpdirs w |}).
Proof.
  unfold is_tool, lookup_cmd, try_except, subprocess_run. unfold_monad.
  destruct (bool_decide (platform_system = "Windows")); simpl;
    destruct (exec _ _ _) as [m [p|e]]; simpl;
    try destruct (returncode p =? 0); simpl;
    try destruct (is_SubprocessError e); simpl; done.
Qed.

Lemma check_requirements_frame (w w0 : OS) :
  fs w0 = fs w → invoked w0 = invoked w →
  (check_requirements w0).1 = (check_requirements w).1
  ∧ fs (check_requirements w0).2 = fs (check_requirements w).2
  ∧ invoked (check_requirements w0).2 = invoked (check_requirements w).2
  ∧ tmpdirs (check_requirements w0).2 = tmpdirs w0.
Proof.
  intros Hfs Hinv. unfold check_requirements. unfold_monad.
  destruct (is_tool_frame "mplayer" w w0 Hfs Hinv) as (E1 & F1 & I1 & T1 & _).
  destruct (is_tool "mplayer" w0) as [r1 w1].
  destruct (is_tool "mplayer" w) as [r1' w1'].
  simpl in *. subst r1'. destruct r1 as [t1|e1]; [|done].
  destruct (is_tool_frame "ffmpeg" w1' w1 F1 I1) as (E2 & F2 & I2 & T2 & _).
  destruct (is_tool "ffmpeg" w1) as [r2 w2].
  destruct (is_tool "ffmpeg" w1') as [r2' w2'].
  simpl in *. subst r2'.
  destruct r2 as [t2|e2]; [|simpl; split_and!; congruence].
  destruct t1, t2; run_prints; split_and!; congruence.
Qed.

Lemma check_requirements_verdict (w : OS) :
  (check_requirements w).1 = Ok true
  ↔ (is_tool "mplayer" w).1 = Ok true
    ∧ (is_tool "ffmpeg" (is_tool "mplayer" w).2).1 = Ok true.
Proof.
  unfold check_requirements. unfold_monad.
  destruct (is_tool "mplayer" w) as [[t1|e1] w1]; simpl;
    [|split; [done | by intros []]].
  destruct (is_tool "ffmpeg" w1) as [[t2|e2] w2]; simpl;
    [|split; [done | by intros []]].
  destruct t1, t2; run_prints; split; try done; by intros [].
Qed.

(** *** The batch loop and the summary *)

Lemma batch_loop_counts (avi_files : list string) (temp_dir : string)
    (flag : pyval) :
  Forall (λ f, name (Path f) ≠ "") avi_files →
  ∀ (successful failed : Z) (w : OS),
    ∃ s f w',
      batch_loop avi_files temp_dir flag successful failed w
        = (Ok (s, f), w')
      ∧ s + f = successful + failed + Z.of_nat (length avi_files)
      ∧ successful <= s ∧ failed <= f.
Proof.
  induction 1 as [|avi_file rest Hname _ IH]; intros successful failed w.
  - exists successful, failed, w. simpl. split_and!; [done | lia..].
  - destruct (convert_avi_to_mp4_total avi_file temp_dir flag w Hname)
      as (b & w1 & Hc).
    simpl batch_loop. unfold_monad. rewrite Hc.
    destruct b; simpl.
    + destruct (IH (successful + 1) failed
                  (print "" w1).2) as (s & f & w' & E & Hsum & Hs & Hf).
      exists s, f, w'. split_and!; [exact E | lia..].
    + destruct (IH successful (failed + 1)
                  (print "" w1).2) as (s & f & w' & E & Hsum & Hs & Hf).
      exists s, f, w'. split_and!; [exact E | lia..].
Qed.

Lemma print_summary_run (avi_files : list string) (successful failed : Z)
    (elapsed : Q) (w : OS) :
  print_summary avi_files successful failed elapsed w
  = (Ok tt,
     {| fs := fs w;
        stdout := stdout w
                  ++ summary_lines Colors (Z.of_nat (length avi_files))
                       successful failed elapsed;
        invoked := invoked w; tmpdirs := tmpdirs w |}).
Proof.
  unfold print_summary, summary_lines. run_prints.
  destruct (0 <? failed), (0 <? successful); simpl;
    rewrite <- ?app_assoc; reflexivity.
Qed.

Lemma discovered_named (m : gmap string node) (path : PurePath) :
  Forall (λ f, name (Path f) ≠ "") (str <$> rglob m path avi_pattern).
Proof.
  apply Forall_forall. intros f Hf.
  apply elem_of_discovered in Hf as (_ & _ & _ & Hm).
  by apply fnmatch_avi_named.
Qed.

(** *** [main] once the directory and the tools are there *)

Lemma main_good_run (args : Namespace) (w : OS) :
  (os_path_isdir (directory args) w).1 = Ok true →
  (check_requirements w).1 = Ok true →
  let wc := (check_requirements w).2 in
  let temp_dir := mkdtemp (fs wc) in
  let avi_files :=
    str <$> rglob (<[norm temp_dir := Node true 0]> (fs wc))
              (Path (directory args)) avi_pattern in
  ∃ w', main args w = (Ok 0, w')
        ∧ (avi_files ≠ [] →
           ∃ s f t w1 w2,
             batch_loop avi_files temp_dir (remove_original_file args)
               0 0 w1 = (Ok (s, f), w2)
             ∧ fs w1 = <[norm temp_dir := Node true 0]> (fs wc)
             ∧ s + f = Z.of_nat (length avi_files)
             ∧ 0 <= s ∧ 0 <= f
             ∧ stdout w'
               = stdout w2
                 ++ summary_lines Colors (Z.of_nat (length avi_files))
                      s f t).
Proof.
  intros Hdir Hchk wc temp_dir avi_files.
  unfold main. unfold_monad.
  unfold print_colored at 1. unfold print at 1 2 3. cbv beta iota.
  unfold os_path_isdir in *. simpl in Hdir.
  cbn [fs stdout invoked tmpdirs].
  injection Hdir as Hdir. rewrite Hdir.
  change (negb true) with false. cbv beta iota.
  match goal with |- context [check_requirements ?w1] => set (w0 := w1) end.
  destruct (check_requirements_frame w w0 eq_refl eq_refl)
    as (E1 & E2 & E3 & E4).
  fold wc in E2, E3. rewrite Hchk in E1.
  destruct (check_requirements w0) as [rc wc0]. simpl in E1, E2, E3, E4.
  subst rc. change (negb true) with false. cbv beta iota.
  unfold with_TemporaryDirectory.
  rewrite E2. fold temp_dir.
  unfold print_colored at 1 2. unfold print at 1 2.
  unfold find_avi_files. cbv beta iota.
  cbn [fs stdout invoked tmpdirs]. fold avi_files.
  destruct (bool_decide_reflect (avi_files = [])) as [Hnil|Hne].
  - run_prints. eexists. split; [reflexivity | done].
  - unfold print_colored at 1. unfold print at 1 2. cbv beta iota.
    match goal with |- context [batch_loop _ _ _ 0 0 ?w1] =>
      destruct (batch_loop_counts avi_files temp_dir
                  (remove_original_file args)
                  (discovered_named _ _) 0 0 w1)
        as (s & f & w2 & Hloop & Hsum & Hs & Hf);
      rewrite Hloop; set (w1' := w1) in Hloop
    end.
    cbv beta iota. rewrite print_summary_run. cbv beta iota.
    eexists. split; [reflexivity|].
    intros _. eexists s, f, _, w1', w2.
    split_and!; [exact Hloop | done | lia | done | done | reflexivity ].
Qed.


(** C9.  When the target directory does not exist, [main] returns 1;
    no temporary directory was created and no command was run, so the
    tool check did not take place. *)
Theorem missing_directory_exit_1 (args : Namespace) (w : OS) :
  (os_path_isdir (directory args) w).1 = Ok false →
  ∃ w', main args w = (Ok 1, w')
        ∧ tmpdirs w' = tmpdirs w
        ∧ invoked w' = invoked w
        ∧ fs w' = fs w.
Proof. apply main_missing_directory. Qed.





(** C10.  When the directory and the tools are there and files are
    found, the loop ends with [successful + failed] equal to the number
    of files found, [main] returns 0, and the last lines of its output
    are the summary showing that number as the total, with these two
    counters. *)
Theorem batch_counters_add_up (args : Namespace) (w : OS) :
  (os_path_isdir (directory args) w).1 = Ok true →
  (check_requirements w).1 = Ok true →
  let wc := (check_requirements w).2 in
  let temp_dir := mkdtemp (fs wc) in
  let avi_files :=
    str <$> rglob (<[norm temp_dir := Node true 0]> (fs wc))
              (Path (directory args)) avi_pattern in
  avi_files ≠ [] →
  ∃ successful failed elapsed w1 w2 w',
    batch_loop avi_files temp_dir (remove_original_file args) 0 0 w1
      = (Ok (successful, failed), w2)
    ∧ fs w1 = <[norm temp_dir := Node true 0]> (fs wc)
    ∧ successful + failed = Z.of_nat (length avi_files)
    ∧ 0 <= successful ∧ 0 <= failed
    ∧ main args w = (Ok 0, w')
    ∧ stdout w'
      = stdout w2
        ++ summary_lines Colors (Z.of_nat (length avi_files))
             successful failed elapsed.
Proof.
  intros Hdir Hchk wc temp_dir avi_files Hne.
  destruct (main_good_run args w Hdir Hchk) as (w' & Hmain & H).
  destruct (H Hne) as (s & f & t & w1 & w2 & Hloop & Hfs & Hsum & Hs & Hf & Hout).
  exists s, f, t, w1, w2, w'. done.
Qed.

(** C7.  For a directory given as an absolute path without [..],
    [find_avi_files] returns exactly the existing entries that lie any
    number of directories below it, none included, and whose name ends in
    a dot followed by the letters a, v, i, each in upper or lower case:
    every case mixture is found at every depth, a name without that
    extension is not.  In a tree holding [a.AVI], [a.Avi] one level down,
    [a.avi] two levels down and three names without the extension, the
    three are found, a directory before its subdirectories. *)
Theorem discovery_case_insensitive (directory : string) (w : OS) :
  plain directory →
  (∃ avi_files,
     find_avi_files directory w = (Ok avi_files, w)
     ∧ ∀ f, f ∈ avi_files
            ↔ ∃ dirs nm,
                Forall good_component (dirs ++ [nm])
                ∧ f = str {| root := "/";
                             parts := parts (Path directory)
                                      ++ dirs ++ [nm] |}
                ∧ is_Some (fs w !! f)
                ∧ has_extension_ci "avi" nm)
  ∧ (find_avi_files "/videos" Demo.tree).1
    = Ok ["/videos/a.AVI"; "/videos/x/a.Avi"; "/videos/x/y/a.avi"].
Proof.
  intros [Hroot _]. split; [|vm_compute; reflexivity].
  eexists. split; [reflexivity|]. intros f.
  unfold rglob. rewrite elem_of_glob. split.
  - intros (Hk & Hn & Hr & rel & Hp & Hm).
    apply glob_match_rglob in Hm as (dirs & nm & -> & Hm).
    exists dirs, nm. split_and!; [| | done | by apply fnmatch_avi_iff].
    + pose proof (Path_good f) as Hg. rewrite Hp in Hg.
      by apply Forall_app in Hg as [_ Hg].
    + rewrite <- Hn at 1. unfold norm. rewrite Hroot in Hr.
      destruct (Path f) as [r ps]. simpl in *. by subst r ps.
  - intros (dirs & nm & Hg & -> & Hk & Hm).
    assert (HP : Path (str {| root := "/";
                              parts := parts (Path directory)
                                       ++ dirs ++ [nm] |})
                 = {| root := "/";
                      parts := parts (Path directory) ++ dirs ++ [nm] |}).
    { apply Path_str_good; [auto|]. apply Forall_app. split; [|done].
      apply Path_good. }
    split_and!; [done | by unfold norm; rewrite HP | by rewrite HP |].
    exists (dirs ++ [nm]). split; [by rewrite HP|].
    apply glob_match_rglob. exists dirs, nm. split; [done|].
    by apply fnmatch_avi_iff.
Qed.

(** *** The two derived paths *)

Lemma discovered_shape (m : gmap string node) (path : PurePath)
    (f : string) :
  f ∈ str <$> rglob m path avi_pattern →
  ∃ init pre e,
    parts (Path f) = init ++ [pre +:+ "." +:+ e]
    ∧ f = (root (Path f) +:+ dirjoin init) +:+ pre +:+ "." +:+ e
    ∧ lower_s e = "avi".
Proof.
  intros (_ & Hn & _ & Hm)%elem_of_discovered.
  pose proof (fnmatch_avi_named _ Hm) as Hname.
  apply fnmatch_avi_iff in Hm as (pre & e & Hnm & He).
  pose proof (parts_snoc _ Hname) as Hp. rewrite Hnm in Hp.
  remember (removelast (parts (Path f))) as init eqn:Hinit.
  exists init, pre, e. split_and!; [done | | done].
  rewrite <- Hn at 1. unfold norm. clear Hinit Hnm Hname.
  destruct (Path f) as [rt ps]. simpl in *. rewrite Hp. apply str_snoc.
Qed.

Lemma output_of_shape (f : string) (init : list string) (pre e : string) :
  parts (Path f) = init ++ [pre +:+ "." +:+ e] →
  lower_s e = "avi" →
  output_mp4_of f
  = Ok ((root (Path f) +:+ dirjoin init)
          +:+ (if bool_decide (pre = "") then "." +:+ e +:+ ".mp4"
               else pre +:+ ".mp4")).
Proof.
  intros Hp He. unfold output_mp4_of. rewrite with_suffix_mp4.
  destruct (lower_s_facts e) as [Hdot Hlen]. rewrite He in Hdot, Hlen.
  simpl in Hdot, Hlen. symmetry in Hdot.
  assert (Hname : name (Path f) = pre +:+ String "." e).
  { unfold name. rewrite Hp. apply last_last. }
  assert (Hsfx : suffix (Path f)
                 = if bool_decide (pre = "") then "" else String "." e).
  { unfold suffix. rewrite Hname, (rpartition_app "." pre e Hdot).
    simpl String.length. rewrite <- Hlen. simpl.
    destruct (bool_decide_reflect (pre ≠ "")),
      (bool_decide_reflect (pre = "")); simpl; try done; try congruence. }
  rewrite bool_decide_eq_false_2
    by (rewrite Hname; intros E; apply (f_equal String.length) in E;
        rewrite length_app_s in E; simpl in E; lia).
  rewrite Hsfx, Hname, Hp, removelast_last. f_equal.
  rewrite str_snoc. f_equal.
  destruct (decide (pre = "")) as [->|Hpre].
  - rewrite !(bool_decide_eq_true_2 ("" = "")) by done. done.
  - rewrite !(bool_decide_eq_false_2 (pre = "")) by done.
    rewrite (bool_decide_eq_false_2 (String "." e = "")) by done.
    rewrite length_app_s. simpl String.length.
    replace (String.length pre + S (String.length e)
             - S (String.length e))%nat with (String.length pre) by lia.
    by rewrite substring_app.
Qed.

(** C4 (as stated) fails: the file [/videos/.avi] is found, and its
    output path is [/videos/.avi.mp4], not the input with its last four
    characters replaced. *)
Lemma output_path_dotfile_counterexample :
  ¬ (∀ (directory f : string) (w : OS) (avi_files : list string),
       (find_avi_files directory w).1 = Ok avi_files →
       f ∈ avi_files →
       output_mp4_of f = Ok (replace_ext f)).
Proof.
  intros H.
  specialize (H "/videos" "/videos/.avi" Demo.hidden ["/videos/.avi"]).
  assert (E : output_mp4_of "/videos/.avi" = Ok "/videos/.avi.mp4")
    by (vm_compute; reflexivity).
  rewrite E in H.
  assert (E' : replace_ext "/videos/.avi" = "/videos/.mp4")
    by (vm_compute; reflexivity).
  rewrite E' in H.
  discriminate H; [vm_compute; reflexivity | apply list_elem_of_singleton; reflexivity].
Qed.

(** C4 (amended).  A found path is a directory prefix [D] (empty or
    ending in a slash) followed by a name [pre.e] without slashes whose
    extension [e] is avi in some case.  The output path is [D], then
    [pre.mp4] when [pre] is not empty (the input with its last four
    characters replaced), then [.e.mp4] when the whole name is the
    extension: in both cases a name in the directory of the input. *)
Theorem output_path_of_discovered
    (directory f : string) (w : OS) (avi_files : list string) :
  (find_avi_files directory w).1 = Ok avi_files →
  f ∈ avi_files →
  ∃ D pre e,
    f = D +:+ pre +:+ "." +:+ e
    ∧ (D = "" ∨ Str.ends_with "/" D = true)
    ∧ Str.contains "/" (pre +:+ "." +:+ e) = false
    ∧ lower_s e = "avi"
    ∧ output_mp4_of f
      = Ok (D +:+ (if bool_decide (pre = "") then "." +:+ e +:+ ".mp4"
                   else pre +:+ ".mp4"))
    ∧ (pre ≠ "" → output_mp4_of f = Ok (replace_ext f)).
Proof.
  intros [= <-] Hf.
  destruct (discovered_shape _ _ _ Hf) as (init & pre & e & Hp & Hstr & He).
  pose proof (output_of_shape f init pre e Hp He) as Hout.
  exists (root (Path f) +:+ dirjoin init), pre, e.
  split_and!; [done | apply dir_prefix_ends | | done | done |].
  - apply (Path_parts_good f). rewrite Hp.
    apply elem_of_app. right. by apply list_elem_of_singleton.
  - intros Hpre. rewrite Hout, bool_decide_eq_false_2 by done.
    f_equal. unfold replace_ext.
    destruct (lower_s_facts e) as [_ Hlen]. rewrite He in Hlen.
    simpl in Hlen.
    remember (root (Path f) +:+ dirjoin init) as D eqn:HD. clear HD Hout Hp Hf.
    subst f. rewrite <- (app_assoc_s D pre ".mp4"). f_equal.
    rewrite !length_app_s.
    change ("." +:+ e) with (String "." e). simpl String.length.
    rewrite <- Hlen.
    assert (El : (String.length D + (String.length pre + (1 + 3)) - 4
                  = String.length (D +:+ pre))%nat)
      by (rewrite length_app_s; lia).
    by rewrite El, <- (app_assoc_s D pre), substring_app.
Qed.

(** C3 (as stated) fails: [/videos/x/a.avi] and [/videos/y/a.avi] are
    both found, lie in different directories, have the same base name,
    and get the same intermediate path. *)
Lemma intermediate_paths_collide_counterexample :
  ¬ (∀ (directory temp_dir f g : string) (w : OS)
       (avi_files : list string),
       (find_avi_files directory w).1 = Ok avi_files →
       f ∈ avi_files → g ∈ avi_files →
       parent (Path f) ≠ parent (Path g) →
       name (Path f) = name (Path g) →
       temp_h264_of temp_dir f ≠ temp_h264_of temp_dir g).
Proof.
  intros H.
  assert (E : ∃ l, (find_avi_files "/videos" Demo.twins).1 = Ok l
                   ∧ "/videos/x/a.avi" ∈ l ∧ "/videos/y/a.avi" ∈ l).
  { eexists. split; [vm_compute; reflexivity|].
    split; apply list_elem_of_In; simpl; auto. }
  destruct E as (l & E & Hx & Hy).
  apply (H "/videos" "/tmp/tmpk3v9x1" _ _ Demo.twins l E Hx Hy).
  - vm_compute. discriminate.
  - vm_compute. reflexivity.
  - vm_compute. reflexivity.
Qed.

(** C3 (amended).  For an input that names a file, the intermediate
    path is the temporary directory followed by the single component
    [<stem>.h264]: it lies below the temporary directory, its directory
    is the temporary directory, and it is not beside an input that lies
    elsewhere.  Two inputs get the same intermediate path exactly when
    their stems are equal. *)
Theorem intermediate_path_in_workspace (temp_dir f : string) :
  name (Path f) ≠ "" →
  Path (temp_h264_of temp_dir f)
  = {| root := root (Path temp_dir);
       parts := parts (Path temp_dir) ++ [stem (Path f) +:+ ".h264"] |}
  ∧ beneath (Path temp_dir) (Path (temp_h264_of temp_dir f))
  ∧ parent (Path (temp_h264_of temp_dir f)) = Path temp_dir
  ∧ (parent (Path f) ≠ Path temp_dir →
     parent (Path (temp_h264_of temp_dir f)) ≠ parent (Path f))
  ∧ ∀ g, name (Path g) ≠ "" →
         (temp_h264_of temp_dir f = temp_h264_of temp_dir g
          ↔ stem (Path f) = stem (Path g)).
Proof.
  intros Hf.
  assert (HP : ∀ g, name (Path g) ≠ "" →
            Path (temp_h264_of temp_dir g)
            = {| root := root (Path temp_dir);
                 parts := parts (Path temp_dir)
                          ++ [stem (Path g) +:+ ".h264"] |}).
  { intros g Hg. destruct (stem_good g Hg) as [_ Hs].
    destruct (dump_name_good _ Hs) as (H1 & H2 & H3).
    unfold temp_h264_of. by apply Path_child. }
  split_and!.
  - by apply HP.
  - rewrite (HP f Hf). unfold beneath. simpl. split_and!; [done | |].
    + by apply prefix_app_r.
    + intros E. apply (f_equal length) in E.
      rewrite length_app in E. simpl in E. lia.
  - rewrite (HP f Hf). unfold parent. simpl. rewrite removelast_last.
    by destruct (Path temp_dir).
  - intros Hne E. apply Hne. rewrite <- E, (HP f Hf). unfold parent. simpl.
    rewrite removelast_last. by destruct (Path temp_dir).
  - intros g Hg. split.
    + intros E. apply (f_equal Path) in E.
      rewrite (HP f Hf), (HP g Hg) in E. injection E as E.
      apply app_inv_head in E. injection E as E.
      by apply app_inv_tail_s in E.
    + intros E. unfold temp_h264_of. by rewrite E.
Qed.

(** *** Deleting the original *)

Lemma verify_step_true (avi_file output_mp4 : string) (flag : pyval)
    (w w' : OS) :
  verify_step avi_file output_mp4 flag w = (Ok true, w') →
  is_Some (fs w !! norm output_mp4)
  ∧ if truthy flag
    then fs w' = delete (norm avi_file) (fs w)
         ∧ is_Some (fs w !! norm avi_file)
    else fs w' = fs w.
Proof.
  unfold verify_step, try_except, os_path_getsize, os_remove.
  run_prints.
  destruct (fs w !! norm output_mp4) as [n|] eqn:E; simpl; [|done].
  destruct (truthy flag); simpl.
  - destruct (fs w !! norm avi_file) as [n'|]; simpl; [|done].
    destruct (is_dir n'); simpl; [done|]. intros [= <-]. eauto.
  - intros [= <-]. eauto.
Qed.

End ScriptFacts.

(** ** The deletion flag on the command line *)

(** C1.  With [--remove_original_file] given without a value, [argparse]
    stores [None], which is false in [if remove_original_file:]: both
    files are converted and both originals are still there after the run.
    With the value [False] the attribute is the non-empty string
    ['False'], which is true: both originals are deleted. *)
Theorem bare_flag_keeps_original :
  let env := Demo.linux ["mplayer"; "ffmpeg"] [] in
  parse_args ["/videos"; "--remove_original_file"]
  = Some {| directory := "/videos"; remove_original_file := PyNone |}
  ∧ parse_args ["/videos"; "--remove_original_file"; "False"]
    = Some {| directory := "/videos";
              remove_original_file := PyStr "False" |}
  ∧ (∃ w', main {| directory := "/videos"; remove_original_file := PyNone |}
             Demo.videos = (Ok 0, w')
           ∧ dom (fs w')
             = {["/tmp"; "/videos"; "/videos/a.avi"; "/videos/a.mp4";
                 "/videos/b.AVI"; "/videos/b.mp4"]}
           ∧ (ESC +:+ "[0;32m" +:+ "  Successfully converted: 2"
                +:+ ESC +:+ "[0m") ∈ stdout w')
  ∧ (∃ w', main {| directory := "/videos";
                   remove_original_file := PyStr "False" |}
             Demo.videos = (Ok 0, w')
           ∧ dom (fs w')
             = {["/tmp"; "/videos"; "/videos/a.mp4"; "/videos/b.mp4"]}).
Proof.
  intros env. split_and!; [reflexivity | reflexivity | |].
  - eexists. split_and!; [vm_compute; reflexivity | | ].
    + vm_compute. reflexivity.
    + apply (bool_decide_unpack _). vm_compute. exact I.
  - eexists. split; [vm_compute; reflexivity|]. vm_compute. reflexivity.
Qed.

(** ** Instances on the example file systems *)

Lemma intermediate_path_in_workspace_witness :
  name (Path "/videos/x/a.avi") ≠ ""
  ∧ beneath (Path "/tmp/tmpk3v9x1")
      (Path (temp_h264_of "/tmp/tmpk3v9x1" "/videos/x/a.avi")).
Proof.
  assert (H : name (Path "/videos/x/a.avi") ≠ "")
    by (vm_compute; discriminate).
  split; [exact H|].
  exact (proj1 (proj2
           (intermediate_path_in_workspace "/tmp/tmpk3v9x1"
              "/videos/x/a.avi" H))).
Defined.

Lemma output_path_of_discovered_witness :
  (find_avi_files "/videos" Demo.videos).1
  = Ok ["/videos/a.avi"; "/videos/b.AVI"]
  ∧ ∃ D pre e,
      "/videos/b.AVI" = D +:+ pre +:+ "." +:+ e
      ∧ output_mp4_of "/videos/b.AVI"
        = Ok (D +:+ (if bool_decide (pre = "") then "." +:+ e +:+ ".mp4"
                     else pre +:+ ".mp4")).
Proof.
  assert (H : (find_avi_files "/videos" Demo.videos).1
              = Ok ["/videos/a.avi"; "/videos/b.AVI"])
    by (vm_compute; reflexivity).
  split; [exact H|].
  destruct (output_path_of_discovered "/videos" "/videos/b.AVI" Demo.videos
              ["/videos/a.avi"; "/videos/b.AVI"] H
              ltac:(apply (bool_decide_unpack _); vm_compute; exact I))
    as (D & pre & e & H1 & _ & _ & _ & H2 & _).
  exists D, pre, e. split; assumption.
Defined.


Lemma tool_exceptions_are_caught_witness :
  (let env := linux_with (failing_tools ["mplayer"]) in
   ∃ w', convert_avi_to_mp4 "/videos/a.avi" "/tmp/tmpk3v9x1" PyNone
           Demo.videos = (Ok false, w')
         ∧ last (stdout w')
           = Some (RED Colors
                     +:+ ("  Error running mplayer: "
                            +:+ "[Errno 2] No such file or directory: 'mplayer'")
                     +:+ NC Colors))
  ∧ (let env := linux_with (failing_tools ["ffmpeg"]) in
     ∃ w', convert_avi_to_mp4 "/videos/a.avi" "/tmp/tmpk3v9x1" PyNone
             Demo.videos = (Ok false, w')
           ∧ last (stdout w')
             = Some (RED Colors
                       +:+ ("  Error running ffmpeg: "
                              +:+ "[Errno 2] No such file or directory: 'ffmpeg'")
                       +:+ NC Colors)).
Proof.
  assert (Hname : name (Path "/videos/a.avi") ≠ "")
    by (vm_compute; discriminate).
  set (temp := temp_h264_of "/tmp/tmpk3v9x1" "/videos/a.avi").
  split.
  - intros env.
    set (e := Exn FileNotFoundError
                "[Errno 2] No such file or directory: 'mplayer'").
    assert (H1 : exec (fs Demo.videos) (invoked Demo.videos)
                   (mplayer_cmd temp "/videos/a.avi")
                 = (fs Demo.videos, Raise e))
      by (vm_compute; reflexivity).
    pose proof (@tool_exceptions_are_caught env "/videos/a.avi"
                  "/tmp/tmpk3v9x1" PyNone Demo.videos Hname) as H.
    cbv zeta in H. destruct H as (_ & H & _).
    destruct (H _ _ H1) as (w' & E1 & E2 & _).
    exists w'. split; [exact E1 | exact E2].
  - intros env.
    set (e := Exn FileNotFoundError
                "[Errno 2] No such file or directory: 'ffmpeg'").
    set (m1 := <["/tmp/tmpk3v9x1/a.h264" := Node false 1000]>
                 (fs Demo.videos)).
    assert (Ho : output_mp4_of "/videos/a.avi" = Ok "/videos/a.mp4")
      by (vm_compute; reflexivity).
    assert (H1 : exec (fs Demo.videos) (invoked Demo.videos)
                   (mplayer_cmd temp "/videos/a.avi")
                 = (m1, Ok (Completed 0 "")))
      by (vm_compute; reflexivity).
    assert (Hg : ¬ extraction_fails m1 (Completed 0 "") temp).
    { intros [H|H]; [by apply H|]. vm_compute in H. discriminate H. }
    assert (H2 : exec m1 (invoked Demo.videos
                            ++ [mplayer_cmd temp "/videos/a.avi"])
                   (ffmpeg_cmd temp "/videos/a.mp4")
                 = (m1, Raise e))
      by (vm_compute; reflexivity).
    pose proof (@tool_exceptions_are_caught env "/videos/a.avi"
                  "/tmp/tmpk3v9x1" PyNone Demo.videos Hname) as H.
    cbv zeta in H. destruct H as (_ & _ & H).
    destruct (H _ _ _ _ _ Ho H1 Hg H2) as (w' & E1 & E2 & _).
    exists w'. split; [exact E1 | exact E2].
Defined.



Lemma discovery_case_insensitive_witness :
  plain "/videos"
  ∧ ∃ avi_files,
      find_avi_files "/videos" Demo.tree = (Ok avi_files, Demo.tree)
      ∧ "/videos/x/y/a.avi" ∈ avi_files
      ∧ "/videos/x/c.avi.bak" ∉ avi_files.
Proof.
  assert (Hp : plain "/videos").
  { split; [reflexivity|]. intros H.
    apply (bool_decide_pack _) in H. vm_compute in H. exact H. }
  split; [exact Hp|].
  destruct (discovery_case_insensitive "/videos" Demo.tree Hp)
    as [(avi_files & H1 & H2) _].
  exists avi_files. split; [exact H1|]. split.
  - apply H2. exists ["x"; "y"], "a.avi". split_and!.
    + repeat apply Forall_cons_2; [..|apply Forall_nil_2];
        (split_and!; [discriminate | discriminate | reflexivity]).
    + vm_compute. reflexivity.
    + exists (Demo.file 30). vm_compute. reflexivity.
    + exists "a", "avi". split; reflexivity.
  - intros Hin. apply H2 in Hin as (dirs & nm & Hg & Hf & _ & Hext).
    apply (f_equal Path) in Hf. rewrite Path_str_good in Hf.
    + vm_compute in Hf. injection Hf as Hf.
      destruct dirs as [|d1 [|d2 [|d3 dirs]]]; simpl in Hf;
        try discriminate Hf.
      injection Hf as _ <-.
      apply fnmatch_avi_iff in Hext. vm_compute in Hext.
      discriminate Hext.
    + auto.
    + apply Forall_app. split; [apply Path_good | exact Hg].
Defined.

Lemma missing_directory_exit_1_witness :
  let env := Demo.linux ["mplayer"; "ffmpeg"] [] in
  ∃ w', main {| directory := "/nowhere"; remove_original_file := PyFalse |}
          Demo.videos = (Ok 1, w')
        ∧ tmpdirs w' = [] ∧ invoked w' = [] ∧ fs w' = fs Demo.videos.
Proof.
  intros env.
  exact (@missing_directory_exit_1 env
           {| directory := "/nowhere"; remove_original_file := PyFalse |}
           Demo.videos ltac:(vm_compute; reflexivity)).
Defined.

Lemma batch_counters_add_up_witness :
  let env := Demo.linux ["mplayer"; "ffmpeg"] ["/videos/b.AVI"] in
  ∃ successful failed w',
    successful + failed = 2
    ∧ main {| directory := "/videos"; remove_original_file := PyFalse |}
        Demo.videos = (Ok 0, w').
Proof.
  intros env.
  destruct (@batch_counters_add_up env
              {| directory := "/videos"; remove_original_file := PyFalse |}
              Demo.videos
              ltac:(vm_compute; reflexivity)
              ltac:(vm_compute; reflexivity)
              ltac:(vm_compute; discriminate))
    as (s & f & t & w1 & w2 & w' & _ & _ & Hsum & _ & _ & Hmain & _).
  exists s, f, w'. split; [exact Hsum | exact Hmain].
Defined.

(** * Further properties of the script *)

(** ** The output path *)

Lemma app_inv_length_s (a b x y : string) :
  a +:+ x = b +:+ y → String.length x = String.length y → x = y.
Proof.
  revert b. induction a as [|c a IH]; intros b E Hl.
  - rewrite app_nil_l_s in E. destruct b as [|d b].
    + by rewrite app_nil_l_s in E.
    + apply (f_equal String.length) in E. rewrite length_app_s in E.
      simpl in E. lia.
  - destruct b as [|d b].
    + apply (f_equal String.length) in E. rewrite length_app_s in E.
      rewrite app_nil_l_s in E. simpl in E. lia.
    + rewrite !app_cons_s in E. injection E as _ E. by apply (IH b).
Qed.

Lemma new_name_is_stem (p : PurePath) :
  (if bool_decide (suffix p = "") then name p
   else String.substring 0
          (String.length (name p) - String.length (suffix p)) (name p))
  = stem p.
Proof.
  unfold suffix, stem.
  destruct (Str.rpartition "." (name p)) as [[l r]|] eqn:E; [|done].
  destruct (bool_decide (l ≠ "") && (1 <? String.length r)%nat) eqn:C;
    [|done].
  apply andb_true_iff in C as [_ C]. apply Nat.ltb_lt in C.
  rewrite bool_decide_eq_false_2 by (intros ->; simpl in C; lia).
  apply rpartition_split in E. rewrite E, length_app_s, Nat.add_sub.
  apply substring_app.
Qed.

Lemma mp4_name_good (st : string) :
  Str.contains "/" st = false → good_component (st +:+ ".mp4").
Proof.
  intros H. split_and!.
  - intros E. apply (f_equal String.length) in E.
    rewrite length_app_s in E. simpl in E. lia.
  - intros E. apply (f_equal String.length) in E.
    rewrite length_app_s in E. simpl in E. lia.
  - by rewrite contains_app, H.
Qed.

Lemma output_mp4_of_parsed (f : string) :
  name (Path f) ≠ "" →
  ∃ out, output_mp4_of f = Ok out
         ∧ Path out
           = {| root := root (Path f);
                parts := removelast (parts (Path f))
                         ++ [stem (Path f) +:+ ".mp4"] |}.
Proof.
  intros Hf. unfold output_mp4_of. rewrite with_suffix_mp4.
  rewrite bool_decide_eq_false_2 by done. rewrite new_name_is_stem.
  eexists. split; [reflexivity|]. apply Path_str_good; [apply Path_root|].
  pose proof (Path_good f) as Hg. rewrite (parts_snoc _ Hf) in Hg.
  apply Forall_app in Hg as [Hg _]. apply Forall_app. split; [done|].
  apply Forall_singleton, mp4_name_good. by apply stem_good.
Qed.

Lemma output_differs (m : gmap string node) (path : PurePath)
    (f out : string) :
  f ∈ str <$> rglob m path avi_pattern →
  output_mp4_of f = Ok out →
  norm out ≠ norm f.
Proof.
  intros Hf Hout E.
  apply elem_of_discovered in Hf as (_ & _ & _ & Hm).
  pose proof (fnmatch_avi_named _ Hm) as Hname.
  apply fnmatch_avi_iff in Hm as (st & e & Hnm & He).
  destruct (output_mp4_of_parsed f Hname) as (out' & Hout' & HP).
  rewrite Hout in Hout'. injection Hout' as <-.
  apply (f_equal Path) in E. unfold norm in E. rewrite !Path_str, HP in E.
  apply (f_equal parts) in E. simpl in E.
  pose proof (eq_trans E (parts_snoc _ Hname)) as E'.
  apply app_inv_head in E'. injection E' as E'. rewrite Hnm in E'.
  clear E. rename E' into E.
  apply app_inv_length_s in E.
  - rewrite app_cons_s, app_nil_l_s in E. injection E as <-.
    discriminate He.
  - destruct (lower_s_facts e) as [_ Hl]. rewrite He in Hl.
    rewrite length_app_s. simpl in *. lia.
Qed.

(** X8.  The output path of a file is its directory followed by its stem
    and [.mp4].  So two files get the same output path exactly when they
    lie in the same directory and have the same stem: [a.avi] and [a.AVI]
    side by side are both written to [a.mp4]. *)
Theorem output_paths_shared (f g : string) :
  name (Path f) ≠ "" → name (Path g) ≠ "" →
  output_mp4_of f = output_mp4_of g
  ↔ parent (Path f) = parent (Path g) ∧ stem (Path f) = stem (Path g).
Proof.
  intros Hf Hg.
  destruct (output_mp4_of_parsed f Hf) as (o1 & E1 & P1).
  destruct (output_mp4_of_parsed g Hg) as (o2 & E2 & P2).
  split.
  - intros E. rewrite E1, E2 in E. injection E as ->.
    rewrite P1 in P2. injection P2 as Hr Hp.
    apply app_inj_tail in Hp as [Hp Hs]. split.
    + unfold parent. by rewrite Hr, Hp.
    + by apply app_inv_tail_s in Hs.
  - intros [Hp Hs]. unfold parent in Hp. injection Hp as Hr Hp.
    unfold output_mp4_of. rewrite !with_suffix_mp4.
    rewrite (bool_decide_eq_false_2 _ Hf), (bool_decide_eq_false_2 _ Hg).
    rewrite !new_name_is_stem. by rewrite Hr, Hp, Hs.
Qed.

Section MoreFacts.

Context {env : Env}.

(** ** The tool check *)

Lemma check_requirements_cases (w : OS) (b : bool) (w' : OS) :
  check_requirements w = (Ok b, w') →
  let r1 := exec (fs w) (invoked w) (lookup_cmd "mplayer") in
  let r2 := exec r1.1 (invoked w ++ [lookup_cmd "mplayer"])
              (lookup_cmd "ffmpeg") in
  let missing := (if lookup_found r1.2 then [] else ["mplayer"])
                 ++ (if lookup_found r2.2 then [] else ["ffmpeg"]) in
  b = bool_decide (missing = [])
  ∧ fs w' = r2.1
  ∧ invoked w' = invoked w ++ [lookup_cmd "mplayer"; lookup_cmd "ffmpeg"]
  ∧ tmpdirs w' = tmpdirs w
  ∧ stdout w' = stdout w ++ (if b then [] else install_report Colors missing).
Proof.
  unfold check_requirements. unfold_monad. rewrite is_tool_run.
  destruct (exec (fs w) (invoked w) (lookup_cmd "mplayer")) as [m1 r1].
  cbn [fst snd].
  assert (H1 : ∃ t1, lookup_found r1 = t1
                     ∧ (match r1 with
                        | Ok process => Ok (returncode process =? 0)
                        | Raise e =>
                            if is_SubprocessError e then Ok false else Raise e
                        end = Ok t1
                        ∨ ∃ e, match r1 with
                               | Ok process => Ok (returncode process =? 0)
                               | Raise e =>
                                   if is_SubprocessError e then Ok false
                                   else Raise e
                               end = @Raise bool e)).
  { destruct r1 as [p|e]; simpl; [eauto|].
    destruct (is_SubprocessError e); eauto. }
  destruct H1 as (t1 & Ht1 & [E1 | [e E1]]); rewrite E1; [|intros [=]].
  rewrite is_tool_run. cbn [fs invoked stdout tmpdirs].
  destruct (exec m1 (invoked w ++ [lookup_cmd "mplayer"])
              (lookup_cmd "ffmpeg")) as [m2 r2].
  cbn [fst snd].
  assert (H2 : ∃ t2, lookup_found r2 = t2
                     ∧ (match r2 with
                        | Ok process => Ok (returncode process =? 0)
                        | Raise e =>
                            if is_SubprocessError e then Ok false else Raise e
                        end = Ok t2
                        ∨ ∃ e, match r2 with
                               | Ok process => Ok (returncode process =? 0)
                               | Raise e =>
                                   if is_SubprocessError e then Ok false
                                   else Raise e
                               end = @Raise bool e)).
  { destruct r2 as [p|e]; simpl; [eauto|].
    destruct (is_SubprocessError e); eauto. }
  destruct H2 as (t2 & Ht2 & [E2 | [e E2]]); rewrite E2; [|intros [=]].
  rewrite Ht1, Ht2. clear.
  destruct w as [wfs wout winv wtmp]. cbn [fs stdout invoked tmpdirs].
  destruct t1, t2; cbn [negb app].
  2-4: rewrite bool_decide_eq_true_2 by discriminate;
    cbv beta iota zeta
      delta [print_colored print for_each mbind M_bind mret M_ret bind ret
             fs stdout invoked tmpdirs];
    intros [= <- <-];
    rewrite bool_decide_eq_false_2 by discriminate; unfold install_report;
    split_and!; try reflexivity; rewrite <- !app_assoc; reflexivity.
  rewrite bool_decide_eq_false_2 by (intros H; by apply H).
  intros [= <- <-]. cbn [fs stdout invoked tmpdirs].
  rewrite bool_decide_eq_true_2 by done.
  split_and!; try reflexivity; by rewrite <- ?app_assoc, ?app_nil_r.
Qed.

(** X1.  When [check_requirements] returns, it has looked up [mplayer]
    and then [ffmpeg] (the second even when the first is missing), with
    [where] on Windows and [which] elsewhere.  It returns [True] exactly
    when both lookups ended with status 0, and then prints nothing;
    otherwise it prints the installation report naming exactly the
    programs whose lookup failed. *)
Theorem check_requirements_report (w : OS) (b : bool) (w' : OS) :
  check_requirements w = (Ok b, w') →
  let r1 := exec (fs w) (invoked w) (lookup_cmd "mplayer") in
  let r2 := exec r1.1 (invoked w ++ [lookup_cmd "mplayer"])
              (lookup_cmd "ffmpeg") in
  let missing := (if lookup_found r1.2 then [] else ["mplayer"])
                 ++ (if lookup_found r2.2 then [] else ["ffmpeg"]) in
  b = bool_decide (missing = [])
  ∧ fs w' = r2.1
  ∧ invoked w' = invoked w ++ [lookup_cmd "mplayer"; lookup_cmd "ffmpeg"]
  ∧ tmpdirs w' = tmpdirs w
  ∧ stdout w' = stdout w ++ (if b then [] else install_report Colors missing).
Proof. apply check_requirements_cases. Qed.

(** ** [main] after the directory test *)

Lemma main_unfold (args : Namespace) (w : OS) :
  (os_path_isdir (directory args) w).1 = Ok true →
  main args w
  = (let '(r, wc) := check_requirements (after_banner w) in
     match r with
     | Ok true => with_TemporaryDirectory (main_body args) wc
     | Ok false => (Ok 1, wc)
     | Raise e => (Raise e, wc)
     end).
Proof.
  intros Hdir. unfold main. unfold_monad.
  unfold print_colored at 1. unfold print at 1 2 3. cbv beta iota.
  unfold os_path_isdir in *. simpl in Hdir.
  cbn [fs stdout invoked tmpdirs].
  injection Hdir as Hdir. rewrite Hdir.
  change (negb true) with false. cbv beta iota.
  unfold after_banner. rewrite <- !app_assoc. simpl app.
  destruct (check_requirements _) as [[[]|e] wc]; reflexivity.
Qed.

(** X2.  When the directory exists and a lookup reports a program
    missing, [main] returns 1 right after the two lookups: no temporary
    directory is created, no other command is run, and the file system is
    as the lookups left it. *)
Theorem missing_tool_exit_1 (args : Namespace) (w : OS) :
  (os_path_isdir (directory args) w).1 = Ok true →
  (check_requirements w).1 = Ok false →
  ∃ w', main args w = (Ok 1, w')
        ∧ tmpdirs w' = tmpdirs w
        ∧ invoked w'
          = invoked w ++ [lookup_cmd "mplayer"; lookup_cmd "ffmpeg"]
        ∧ fs w'
          = (exec (exec (fs w) (invoked w) (lookup_cmd "mplayer")).1
               (invoked w ++ [lookup_cmd "mplayer"])
               (lookup_cmd "ffmpeg")).1.
Proof.
  intros Hdir Hchk. rewrite (main_unfold args w Hdir).
  destruct (check_requirements_frame w (after_banner w) eq_refl eq_refl)
    as (E1 & _). rewrite Hchk in E1.
  destruct (check_requirements (after_banner w)) as [r wc] eqn:E.
  simpl in E1. subst r.
  destruct (check_requirements_cases _ _ _ E) as (_ & Hfs & Hinv & Htmp & _).
  exists wc. split_and!; done.
Qed.

(** X3.  When the directory exists and running the lookup command for
    [mplayer] raises an exception that is not a [SubprocessError] (the
    lookup program itself cannot be started), [is_tool] does not catch
    it: [main] ends with that exception after this one command, before
    any temporary directory is created. *)
Theorem lookup_crash_propagates (args : Namespace) (w : OS)
    (m : gmap string node) (e : exn) :
  (os_path_isdir (directory args) w).1 = Ok true →
  exec (fs w) (invoked w) (lookup_cmd "mplayer") = (m, Raise e) →
  is_SubprocessError e = false →
  ∃ w', main args w = (Raise e, w')
        ∧ tmpdirs w' = tmpdirs w
        ∧ invoked w' = invoked w ++ [lookup_cmd "mplayer"]
        ∧ fs w' = m.
Proof.
  intros Hdir Hexec Hsub. rewrite (main_unfold args w Hdir).
  unfold check_requirements. unfold_monad. rewrite is_tool_run.
  cbn [after_banner fs invoked stdout tmpdirs].
  rewrite Hexec. cbn [fst snd]. rewrite Hsub.
  eexists. split_and!; reflexivity.
Qed.

(** ** What one conversion does to the file system *)

Lemma convert_cases (avi_file temp_dir : string) (flag : pyval) (w : OS)
    (out : string) (b : bool) (w' : OS) :
  output_mp4_of avi_file = Ok out →
  convert_avi_to_mp4 avi_file temp_dir flag w = (Ok b, w') →
  let mp := mplayer_cmd (temp_h264_of temp_dir avi_file) avi_file in
  let ff := ffmpeg_cmd (temp_h264_of temp_dir avi_file) out in
  let r1 := exec (fs w) (invoked w) mp in
  let r2 := exec r1.1 (invoked w ++ [mp]) ff in
  tmpdirs w' = tmpdirs w
  ∧ ((b = false ∧ invoked w' = invoked w ++ [mp] ∧ fs w' = r1.1)
     ∨ (b = false ∧ invoked w' = invoked w ++ [mp; ff] ∧ fs w' = r2.1)
     ∨ (b = true ∧ invoked w' = invoked w ++ [mp; ff]
        ∧ is_Some (r2.1 !! norm out)
        ∧ fs w' = if truthy flag then delete (norm avi_file) r2.1
                  else r2.1)).
Proof.
  intros Hout. unfold convert_avi_to_mp4. unfold_monad. rewrite Hout.
  unfold extract_step, remux_step, verify_step, try_except, subprocess_run,
    os_path_exists, os_path_getsize, os_remove.
  run_prints.
  destruct (exec (fs w) (invoked w) _) as [m1 [p1|e1]]; simpl;
    [|intros [= <- <-]; solve [simpl; auto 12]].
  destruct (negb (returncode p1 =? 0) || _); simpl;
    [intros [= <- <-]; solve [simpl; auto 12]|].
  destruct (exec m1 _ _) as [m2 [p2|e2]]; simpl;
    [|intros [= <- <-]; solve [simpl; rewrite <- !app_assoc; auto 12]].
  destruct (negb (returncode p2 =? 0) || _); simpl;
    [intros [= <- <-]; solve [simpl; rewrite <- !app_assoc; auto 12]|].
  destruct (m2 !! norm out) as [n|] eqn:En; simpl;
    [|intros [= <- <-]; solve [simpl; rewrite <- !app_assoc; auto 12]].
  destruct (truthy flag); simpl.
  - destruct (m2 !! norm avi_file) as [n'|]; simpl;
      [|intros [= <- <-]; solve [simpl; rewrite <- !app_assoc; auto 12]].
    destruct (is_dir n'); simpl; intros [= <- <-];
      solve [simpl; rewrite <- !app_assoc; auto 12].
  - intros [= <- <-]; solve [simpl; rewrite <- !app_assoc; auto 12].
Qed.

(** X4.  A conversion that returns runs [mplayer] and then at most
    [ffmpeg], nothing else.  When it returns [False] the file system is
    exactly what the last command left: the script deleted nothing.  When
    it returns [True] the output existed after [ffmpeg], and the script
    removed the original and nothing else when the flag value is true, and
    nothing at all when it is false. *)
Theorem conversion_file_effects (avi_file temp_dir : string) (flag : pyval)
    (w : OS) (out : string) (b : bool) (w' : OS) :
  output_mp4_of avi_file = Ok out →
  convert_avi_to_mp4 avi_file temp_dir flag w = (Ok b, w') →
  let mp := mplayer_cmd (temp_h264_of temp_dir avi_file) avi_file in
  let ff := ffmpeg_cmd (temp_h264_of temp_dir avi_file) out in
  let r1 := exec (fs w) (invoked w) mp in
  let r2 := exec r1.1 (invoked w ++ [mp]) ff in
  tmpdirs w' = tmpdirs w
  ∧ ((b = false ∧ invoked w' = invoked w ++ [mp] ∧ fs w' = r1.1)
     ∨ (b = false ∧ invoked w' = invoked w ++ [mp; ff] ∧ fs w' = r2.1)
     ∨ (b = true ∧ invoked w' = invoked w ++ [mp; ff]
        ∧ is_Some (r2.1 !! norm out)
        ∧ fs w' = if truthy flag then delete (norm avi_file) r2.1
                  else r2.1)).
Proof. apply convert_cases. Qed.

Lemma extraction_good (m : gmap string node) (p : CompletedProcess)
    (temp_h264 : string) :
  ¬ extraction_fails m p temp_h264 →
  negb (returncode p =? 0) || negb (bool_decide (is_Some (m !! norm temp_h264)))
  = false.
Proof.
  intros H. apply orb_false_iff. unfold extraction_fails in H.
  split; apply negb_false_iff.
  - apply Z.eqb_eq. destruct (decide (returncode p = 0)); tauto.
  - apply bool_decide_eq_true_2.
    destruct (m !! norm temp_h264) eqn:El; [eauto|tauto].
Qed.

(** X5.  When [mplayer] succeeds and [ffmpeg] ends with a non-zero status
    or leaves no output file, the conversion returns [False] after these
    two commands, its last printed line is the error stream of [ffmpeg],
    and the file system is as [ffmpeg] left it: the size is not read and
    the original is not removed, whatever the flag. *)
Theorem remux_failure_keeps_original (avi_file temp_dir : string)
    (flag : pyval) (w : OS) (out : string)
    (m1 m2 : gmap string node) (p1 p2 : CompletedProcess) :
  output_mp4_of avi_file = Ok out →
  let temp_h264 := temp_h264_of temp_dir avi_file in
  exec (fs w) (invoked w) (mplayer_cmd temp_h264 avi_file) = (m1, Ok p1) →
  ¬ extraction_fails m1 p1 temp_h264 →
  exec m1 (invoked w ++ [mplayer_cmd temp_h264 avi_file])
    (ffmpeg_cmd temp_h264 out) = (m2, Ok p2) →
  returncode p2 ≠ 0 ∨ m2 !! norm out = None →
  ∃ w', convert_avi_to_mp4 avi_file temp_dir flag w = (Ok false, w')
        ∧ invoked w'
          = invoked w ++ [mplayer_cmd temp_h264 avi_file;
                          ffmpeg_cmd temp_h264 out]
        ∧ fs w' = m2
        ∧ last (stdout w')
          = Some (RED Colors +:+ ("  Error: " +:+ stderr p2) +:+ NC Colors).
Proof.
  intros Hout temp_h264 H1 Hgood H2 Hfail.
  unfold convert_avi_to_mp4. unfold_monad. rewrite Hout.
  unfold extract_step, remux_step, try_except, subprocess_run,
    os_path_exists.
  run_prints. fold temp_h264. rewrite H1. simpl.
  rewrite (extraction_good _ _ _ Hgood). simpl. rewrite H2. simpl.
  assert (E : negb (returncode p2 =? 0)
              || negb (bool_decide (is_Some (m2 !! norm out))) = true).
  { destruct Hfail as [Hrc | Hmiss].
    - apply Z.eqb_neq in Hrc. by rewrite Hrc.
    - rewrite Hmiss, bool_decide_eq_false_2 by (by intros [? ?]).
      apply orb_true_r. }
  rewrite E. simpl. eexists. split_and!; [reflexivity | | reflexivity |].
  - simpl. by rewrite <- app_assoc.
  - simpl. by rewrite last_snoc.
Qed.





(** ** The loop over the files found *)

Lemma convert_ok_named (avi_file temp_dir : string) (flag : pyval)
    (w : OS) (b : bool) (w' : OS) :
  convert_avi_to_mp4 avi_file temp_dir flag w = (Ok b, w') →
  ∃ out, output_mp4_of avi_file = Ok out.
Proof.
  unfold convert_avi_to_mp4. unfold_monad.
  destruct (output_mp4_of avi_file) as [out|e]; [eauto|intros [=]].
Qed.

Lemma batch_loop_trace (avi_files : list string) (temp_dir : string)
    (flag : pyval) :
  ∀ (successful failed : Z) (w : OS) (s f : Z) (w' : OS),
    batch_loop avi_files temp_dir flag successful failed w
      = (Ok (s, f), w') →
    tmpdirs w' = tmpdirs w
    ∧ ∃ trace,
        invoked w' = invoked w ++ trace
        ∧ filter (runs "mplayer") trace
          = (λ a, mplayer_cmd (temp_h264_of temp_dir a) a) <$> avi_files
        ∧ Forall (λ cmd, runs "mplayer" cmd ∨ runs "ffmpeg" cmd) trace
        ∧ s - successful
          <= Z.of_nat (length (filter (runs "ffmpeg") trace))
          <= Z.of_nat (length avi_files).
Proof.
  induction avi_files as [|a rest IH]; intros successful failed w s f w'.
  - simpl. unfold_monad. intros [= <- <- <-]. split; [done|].
    exists []. rewrite app_nil_r. simpl.
    split_and!; [done | done | done | lia..].
  - simpl batch_loop. unfold_monad.
    destruct (convert_avi_to_mp4 a temp_dir flag w) as [[b|e] w1] eqn:Hc;
      [|intros [=]].
    destruct (convert_ok_named _ _ _ _ _ _ Hc) as [out Hout].
    destruct (convert_cases _ _ _ _ _ _ _ Hout Hc) as [Htmp Hcases].
    set (mp := mplayer_cmd (temp_h264_of temp_dir a) a) in *.
    set (ff := ffmpeg_cmd (temp_h264_of temp_dir a) out) in *.
    assert (Hstep : ∃ step,
              invoked w1 = invoked w ++ mp :: step
              ∧ filter (runs "mplayer") step = []
              ∧ Forall (λ cmd, runs "mplayer" cmd ∨ runs "ffmpeg" cmd) step
              ∧ (if b then 1 else 0)
                <= Z.of_nat (length (filter (runs "ffmpeg") step)) <= 1).
    { assert (Hone : Forall (λ cmd, runs "mplayer" cmd ∨ runs "ffmpeg" cmd)
                       [ff])
        by (apply Forall_singleton; by right).
      destruct Hcases as [(-> & Hi & _) | [(-> & Hi & _) | (-> & Hi & _)]].
      - exists []. split_and!; [done | done | done | simpl; lia..].
      - exists [ff]. split_and!; [done | done | done | simpl; lia..].
      - exists [ff]. split_and!; [done | done | done | simpl; lia..]. }
    destruct Hstep as (step & Hi & Hmp & Hall & Hff).
    assert (Hnext : ∀ s0 f0,
              batch_loop rest temp_dir flag s0 f0 (print "" w1).2
                = (Ok (s, f), w') →
              (if b then successful + 1 else successful) = s0 →
              tmpdirs w' = tmpdirs w
              ∧ ∃ trace,
                  invoked w' = invoked w ++ trace
                  ∧ filter (runs "mplayer") trace
                    = mp :: ((λ a, mplayer_cmd (temp_h264_of temp_dir a) a)
                               <$> rest)
                  ∧ Forall (λ cmd, runs "mplayer" cmd ∨ runs "ffmpeg" cmd)
                      trace
                  ∧ s - successful
                    <= Z.of_nat (length (filter (runs "ffmpeg") trace))
                    <= Z.of_nat (length (a :: rest))).
    { intros s0 f0 Hrest Hs0.
      destruct (IH _ _ _ _ _ _ Hrest)
        as (Ht & trace & Hi' & Hmp' & Hall' & Hff').
      simpl in Ht, Hi'. split; [congruence|].
      exists (mp :: step ++ trace). split_and!.
      - rewrite Hi', Hi, <- app_assoc. reflexivity.
      - rewrite filter_cons_True by reflexivity.
        by rewrite filter_app, Hmp, Hmp'.
      - apply Forall_cons. split; [by left|]. by apply Forall_app.
      - rewrite filter_cons_False by (by intros [=]).
        rewrite filter_app, length_app. destruct b; lia.
      - rewrite filter_cons_False by (by intros [=]).
        rewrite filter_app, length_app. simpl length. lia. }
    destruct b; intros Hrest.
    + exact (Hnext (successful + 1) failed Hrest eq_refl).
    + exact (Hnext successful (failed + 1) Hrest eq_refl).
Qed.

Lemma batch_loop_runs (avi_files : list string) (temp_dir : string)
    (flag : pyval) :
  ∀ (successful failed : Z) (w : OS) (s f : Z) (w' : OS),
    batch_loop avi_files temp_dir flag successful failed w
      = (Ok (s, f), w') →
    ∃ results : list (bool * list (list string)),
      Forall2 (λ a r, file_run temp_dir a r.1 r.2) avi_files results
      ∧ invoked w' = invoked w ++ concat results.*2
      ∧ s = successful
            + Z.of_nat (length (filter (λ r, r.1 = true) results))
      ∧ f = failed
            + Z.of_nat (length (filter (λ r, r.1 = false) results)).
Proof.
  induction avi_files as [|a rest IH]; intros successful failed w s f w'.
  - simpl. unfold_monad. intros [= <- <- <-]. exists [].
    rewrite app_nil_r. simpl. split_and!; [done | done | lia..].
  - simpl batch_loop. unfold_monad.
    destruct (convert_avi_to_mp4 a temp_dir flag w) as [[b|e] w1] eqn:Hc;
      [|intros [=]].
    destruct (convert_ok_named _ _ _ _ _ _ Hc) as [out Hout].
    destruct (convert_cases _ _ _ _ _ _ _ Hout Hc) as [_ Hcases].
    set (mp := mplayer_cmd (temp_h264_of temp_dir a) a) in *.
    set (ff := ffmpeg_cmd (temp_h264_of temp_dir a) out) in *.
    assert (Hstep : ∃ cmds, invoked w1 = invoked w ++ cmds
                            ∧ file_run temp_dir a b cmds).
    { destruct Hcases as [(-> & Hi & _) | [(-> & Hi & _) | (-> & Hi & _)]].
      - exists [mp]. split; [done|]. exists out. split; [done|]. by left.
      - exists [mp; ff]. split; [done|]. exists out. split; [done|].
        by right.
      - exists [mp; ff]. split; [done|]. exists out. split; [done|].
        by right. }
    destruct Hstep as (cmds & Hi & Hrun).
    assert (Hnext : ∀ s0 f0,
              batch_loop rest temp_dir flag s0 f0 (print "" w1).2
                = (Ok (s, f), w') →
              (if b then successful + 1 else successful) = s0 →
              (if b then failed else failed + 1) = f0 →
              ∃ results : list (bool * list (list string)),
                Forall2 (λ a r, file_run temp_dir a r.1 r.2) (a :: rest)
                  results
                ∧ invoked w' = invoked w ++ concat results.*2
                ∧ s = successful
                      + Z.of_nat
                          (length (filter (λ r, r.1 = true) results))
                ∧ f = failed
                      + Z.of_nat
                          (length (filter (λ r, r.1 = false) results))).
    { intros s0 f0 Hrest Hs0 Hf0.
      destruct (IH _ _ _ _ _ _ Hrest) as (results & Hall & Hi' & Hs & Hf).
      simpl in Hi'. exists ((b, cmds) :: results). split_and!.
      - by apply Forall2_cons.
      - rewrite Hi', Hi, <- app_assoc. reflexivity.
      - destruct b.
        + rewrite filter_cons_True by done. simpl length. lia.
        + rewrite filter_cons_False by done. lia.
      - destruct b.
        + rewrite filter_cons_False by done. lia.
        + rewrite filter_cons_True by done. simpl length. lia. }
    destruct b; intros Hrest.
    + exact (Hnext (successful + 1) failed Hrest eq_refl eq_refl).
    + exact (Hnext successful (failed + 1) Hrest eq_refl eq_refl).
Qed.

(** X7.  When the loop over the files ends, the commands it has run are,
    file by file in the order of the list, the [mplayer] command of that
    file followed by at most one [ffmpeg] command, which is that file's
    own: no file is skipped and none is retried, whatever failed in
    between.  A file whose conversion returned [True] had its [ffmpeg]
    command run, and the two counters have grown by the numbers of
    [True] and of [False] results.  In total: one [mplayer] command per
    file with that file's intermediate path, no program other than
    [mplayer] and [ffmpeg], and at least as many [ffmpeg] commands as
    successes, at most as many as files. *)
Theorem batch_runs_each_file_once (avi_files : list string)
    (temp_dir : string) (flag : pyval) (successful failed : Z) (w : OS)
    (s f : Z) (w' : OS) :
  batch_loop avi_files temp_dir flag successful failed w
    = (Ok (s, f), w') →
  ∃ results : list (bool * list (list string)),
    let trace := concat results.*2 in
    Forall2 (λ a r, file_run temp_dir a r.1 r.2) avi_files results
    ∧ invoked w' = invoked w ++ trace
    ∧ s = successful + Z.of_nat (length (filter (λ r, r.1 = true) results))
    ∧ f = failed + Z.of_nat (length (filter (λ r, r.1 = false) results))
    ∧ filter (runs "mplayer") trace
      = (λ a, mplayer_cmd (temp_h264_of temp_dir a) a) <$> avi_files
    ∧ Forall (λ cmd, runs "mplayer" cmd ∨ runs "ffmpeg" cmd) trace
    ∧ s - successful
      <= Z.of_nat (length (filter (runs "ffmpeg") trace))
      <= Z.of_nat (length avi_files).
Proof.
  intros H.
  destruct (batch_loop_runs _ _ _ _ _ _ _ _ _ H)
    as (results & Hall & Hi & Hs & Hf).
  destruct (batch_loop_trace _ _ _ _ _ _ _ _ _ H)
    as (_ & trace & Hi' & Hmp & Hcmds & Hff).
  rewrite Hi in Hi'. apply app_inv_head in Hi'. subst trace.
  exists results. cbv zeta. split_and!; try done; lia.
Qed.

(** ** A conversion that succeeds *)

(** X9.  For a file the search returns, a conversion that returns [True]
    leaves the output in place.  With a true flag value the original is
    gone afterwards and every other entry is as [ffmpeg] left it: the
    output path never names the original, so the deletion cannot hit the
    file just written.  With a false flag value nothing is deleted. *)
Theorem success_removes_only_original (directory f temp_dir : string)
    (flag : pyval) (w0 w w' : OS) (avi_files : list string) (out : string) :
  (find_avi_files directory w0).1 = Ok avi_files →
  f ∈ avi_files →
  output_mp4_of f = Ok out →
  convert_avi_to_mp4 f temp_dir flag w = (Ok true, w') →
  let mp := mplayer_cmd (temp_h264_of temp_dir f) f in
  let ff := ffmpeg_cmd (temp_h264_of temp_dir f) out in
  let m2 := (exec (exec (fs w) (invoked w) mp).1 (invoked w ++ [mp]) ff).1 in
  is_Some (fs w' !! norm out)
  ∧ (truthy flag = true →
     fs w' !! norm f = None ∧ ∀ k, k ≠ norm f → fs w' !! k = m2 !! k)
  ∧ (truthy flag = false → fs w' = m2).
Proof.
  intros Hfind Hin Hout Hc mp ff m2.
  unfold find_avi_files in Hfind. simpl in Hfind. injection Hfind as <-.
  pose proof (output_differs _ _ _ _ Hin Hout) as Hne.
  destruct (convert_cases _ _ _ _ _ _ _ Hout Hc)
    as [_ [(? & _) | [(? & _) | (_ & _ & Hsome & Hfs)]]]; [done | done |].
  fold mp ff m2 in Hsome, Hfs. rewrite Hfs.
  destruct (truthy flag); split_and!; try done.
  - by rewrite lookup_delete_ne.
  - intros _. split; [apply lookup_delete_eq|].
    intros k Hk. by rewrite lookup_delete_ne.
Qed.

(** ** The temporary directory *)

Lemma rmtree_gone (d k : string) (m : gmap string node) :
  k = norm d ∨ beneath (Path d) (Path k) → rmtree d m !! k = None.
Proof.
  intros H. unfold rmtree. apply map_lookup_filter_None. right.
  intros x _ Hn. by apply Hn.
Qed.

Lemma rmtree_kept (d k : string) (m : gmap string node) :
  ¬ (k = norm d ∨ beneath (Path d) (Path k)) → rmtree d m !! k = m !! k.
Proof.
  intros H. unfold rmtree. destruct (m !! k) as [x|] eqn:E.
  - by apply map_lookup_filter_Some.
  - apply map_lookup_filter_None. by left.
Qed.

Lemma temp_h264_beneath (temp_dir f : string) :
  name (Path f) ≠ "" →
  beneath (Path temp_dir) (Path (norm (temp_h264_of temp_dir f))).
Proof.
  intros Hf. unfold norm. rewrite Path_str.
  destruct (stem_good f Hf) as [_ Hs].
  destruct (dump_name_good _ Hs) as (H1 & H2 & H3).
  unfold temp_h264_of. rewrite Path_child by done.
  unfold beneath. simpl. split_and!; [done | by apply prefix_app_r |].
  intros E. apply (f_equal length) in E. rewrite length_app in E.
  simpl in E. lia.
Qed.

Lemma discovered_NoDup (m : gmap string node) (path : PurePath)
    (pat : list glob_token) :
  NoDup (str <$> rglob m path pat).
Proof.
  unfold rglob, glob. rewrite merge_sort_Permutation.
  rewrite <- list_fmap_compose.
  apply NoDup_fmap_2_strong.
  - intros x y Hx Hy E.
    apply list_elem_of_filter in Hx as [[Hx _] _].
    apply list_elem_of_filter in Hy as [[Hy _] _].
    unfold norm in Hx, Hy. simpl in E. congruence.
  - apply NoDup_filter, NoDup_fst_map_to_list.
Qed.

(** ** The body of the [with] block and [main] as a whole *)

Lemma main_body_run (args : Namespace) (temp_dir : string) (w : OS) :
  let avi_files := str <$> rglob (fs w) (Path (directory args)) avi_pattern in
  ∃ w2, main_body args temp_dir w = (Ok 0, w2)
        ∧ tmpdirs w2 = tmpdirs w
        ∧ (avi_files = [] →
           fs w2 = fs w
           ∧ stdout w2
             = stdout w
               ++ [BLUE Colors
                     +:+ ("Created temporary directory: " +:+ temp_dir)
                     +:+ NC Colors;
                   YELLOW Colors
                     +:+ ("Searching for AVI files in: " +:+ directory args)
                     +:+ NC Colors;
                   RED Colors
                     +:+ "No AVI files found in the specified directory."
                     +:+ NC Colors])
        ∧ ∃ trace,
            invoked w2 = invoked w ++ trace
            ∧ filter (runs "mplayer") trace
              = (λ a, mplayer_cmd (temp_h264_of temp_dir a) a) <$> avi_files
            ∧ Forall (λ cmd, runs "mplayer" cmd ∨ runs "ffmpeg" cmd) trace
            ∧ (length (filter (runs "ffmpeg") trace) <= length avi_files)%nat.
Proof.
  intros avi_files. unfold main_body. unfold_monad.
  unfold print_colored at 1 2. unfold print at 1 2.
  unfold find_avi_files. cbv beta iota.
  cbn [fs stdout invoked tmpdirs]. fold avi_files.
  destruct (bool_decide_reflect (avi_files = [])) as [Hnil|Hne].
  - unfold print_colored, print. cbv beta iota.
    cbn [fs stdout invoked tmpdirs].
    eexists. split; [reflexivity|]. cbn [fs stdout invoked tmpdirs].
    split_and!; [done | | ].
    + intros _. split; [done|]. by rewrite <- !app_assoc.
    + exists []. rewrite app_nil_r, Hnil. simpl.
      split_and!; [done | done | done | lia].
  - unfold print_colored at 1. unfold print at 1 2. cbv beta iota.
    match goal with |- context [batch_loop _ _ _ 0 0 ?w1] =>
      destruct (batch_loop_counts avi_files temp_dir
                  (remove_original_file args)
                  (discovered_named _ _) 0 0 w1)
        as (s & f & wl & Hloop & _);
      rewrite Hloop;
      destruct (batch_loop_trace _ _ _ _ _ _ _ _ _ Hloop)
        as (Htmp & trace & Hinv & Hmp & Hall & Hff)
    end.
    cbv beta iota. rewrite print_summary_run. cbv beta iota.
    cbn [fs stdout invoked tmpdirs] in *.
    eexists. split; [reflexivity|]. cbn [fs stdout invoked tmpdirs].
    split_and!; [done | done |].
    exists trace. split_and!; [done | done | done | lia].
Qed.

Lemma main_run (args : Namespace) (w : OS) :
  (os_path_isdir (directory args) w).1 = Ok true →
  (check_requirements w).1 = Ok true →
  let wc := (check_requirements w).2 in
  let temp_dir := mkdtemp (fs wc) in
  let m1 := <[norm temp_dir := Node true 0]> (fs wc) in
  let avi_files := str <$> rglob m1 (Path (directory args)) avi_pattern in
  ∃ w2 w',
    main args w = (Ok 0, w')
    ∧ fs w' = rmtree temp_dir (fs w2)
    ∧ invoked w' = invoked w2
    ∧ stdout w' = stdout w2
    ∧ tmpdirs w' = tmpdirs w ++ [temp_dir]
    ∧ (avi_files = [] →
       fs w2 = m1
       ∧ last (stdout w2)
         = Some (RED Colors
                   +:+ "No AVI files found in the specified directory."
                   +:+ NC Colors))
    ∧ ∃ trace,
        invoked w2
        = invoked w ++ [lookup_cmd "mplayer"; lookup_cmd "ffmpeg"] ++ trace
        ∧ filter (runs "mplayer") trace
          = (λ a, mplayer_cmd (temp_h264_of temp_dir a) a) <$> avi_files
        ∧ Forall (λ cmd, runs "mplayer" cmd ∨ runs "ffmpeg" cmd) trace
        ∧ (length (filter (runs "ffmpeg") trace) <= length avi_files)%nat.
Proof.
  intros Hdir Hchk wc temp_dir m1 avi_files.
  rewrite (main_unfold args w Hdir).
  destruct (check_requirements_frame w (after_banner w) eq_refl eq_refl)
    as (E1 & E2 & E3 & E4).
  fold wc in E2, E3. rewrite Hchk in E1.
  destruct (check_requirements w) as [r wc'] eqn:Ew.
  simpl in Hchk. subst r.
  destruct (check_requirements_cases _ _ _ Ew) as (_ & _ & Hinv & Htmp & _).
  simpl in wc. subst wc.
  destruct (check_requirements (after_banner w)) as [rc wc0].
  simpl in E1, E2, E3, E4. subst rc.
  unfold with_TemporaryDirectory. rewrite E2. fold temp_dir m1.
  match goal with |- context [main_body args temp_dir ?w1] =>
    destruct (main_body_run args temp_dir w1)
      as (w2 & Hbody & Ht & Hnil & trace & Hi & Hmp & Hall & Hff)
  end.
  rewrite Hbody. cbn [fs stdout invoked tmpdirs] in *.
  exists w2. eexists. split; [reflexivity|].
  unfold set_fs. cbn [fs stdout invoked tmpdirs].
  split_and!; [done | done | done | by rewrite Ht, E4 | |].
  - intros Hempty. destruct (Hnil Hempty) as [Hfs Hout].
    split; [done|]. rewrite Hout.
    by rewrite (last_app _ [_; _; _]).
  - exists trace. rewrite Hi, E3, Hinv, <- app_assoc.
    split_and!; done.
Qed.

(** X10.  Once the directory and both programs are there, [main] returns
    0 and the temporary directory it created is gone when it returns,
    with everything below it: no intermediate stream file of any input
    is left behind, whether its conversion succeeded or not.  The run
    created exactly this one temporary directory. *)
Theorem workspace_removed_at_exit (args : Namespace) (w : OS) :
  (os_path_isdir (directory args) w).1 = Ok true →
  (check_requirements w).1 = Ok true →
  let temp_dir := mkdtemp (fs (check_requirements w).2) in
  ∃ w', main args w = (Ok 0, w')
        ∧ tmpdirs w' = tmpdirs w ++ [temp_dir]
        ∧ fs w' !! norm temp_dir = None
        ∧ (∀ k, beneath (Path temp_dir) (Path k) → fs w' !! k = None)
        ∧ (∀ f, name (Path f) ≠ "" →
                fs w' !! norm (temp_h264_of temp_dir f) = None).
Proof.
  intros Hdir Hchk temp_dir.
  destruct (main_run args w Hdir Hchk)
    as (w2 & w' & Hmain & Hfs & _ & _ & Htmp & _).
  exists w'. fold temp_dir in Hfs, Htmp. rewrite Hfs.
  split_and!; [done | done | | |].
  - apply rmtree_gone. by left.
  - intros k Hk. apply rmtree_gone. by right.
  - intros f Hf. apply rmtree_gone. right. by apply temp_h264_beneath.
Qed.

(** X11.  Once the directory and both programs are there, the commands
    of a whole run are the two lookups followed by the conversions: one
    [mplayer] command for every path the search returned in the file
    system that already holds the temporary directory, in the order of
    the search and each path once, at most as many [ffmpeg] commands,
    and nothing else. *)
Theorem main_command_trace (args : Namespace) (w : OS) :
  (os_path_isdir (directory args) w).1 = Ok true →
  (check_requirements w).1 = Ok true →
  let wc := (check_requirements w).2 in
  let temp_dir := mkdtemp (fs wc) in
  let avi_files :=
    str <$> rglob (<[norm temp_dir := Node true 0]> (fs wc))
              (Path (directory args)) avi_pattern in
  ∃ w' trace,
    main args w = (Ok 0, w')
    ∧ invoked w'
      = invoked w ++ [lookup_cmd "mplayer"; lookup_cmd "ffmpeg"] ++ trace
    ∧ filter (runs "mplayer") trace
      = (λ a, mplayer_cmd (temp_h264_of temp_dir a) a) <$> avi_files
    ∧ NoDup avi_files
    ∧ Forall (λ cmd, runs "mplayer" cmd ∨ runs "ffmpeg" cmd) trace
    ∧ (length (filter (runs "ffmpeg") trace) <= length avi_files)%nat.
Proof.
  intros Hdir Hchk wc temp_dir avi_files.
  destruct (main_run args w Hdir Hchk)
    as (w2 & w' & Hmain & _ & Hinv & _ & _ & _ & trace & Hi & Hmp & Hall
        & Hff).
  exists w', trace. rewrite Hinv.
  split_and!; [done | done | done | apply discovered_NoDup | done | done].
Qed.

(** X12.  When the search finds nothing, [main] returns 0 without
    running anything after the two lookups; the last line printed says
    that no AVI files were found (no summary follows), and the file
    system is the one the lookups left, the temporary directory created
    and removed again. *)
Theorem no_files_found_exit_0 (args : Namespace) (w : OS) :
  (os_path_isdir (directory args) w).1 = Ok true →
  (check_requirements w).1 = Ok true →
  let wc := (check_requirements w).2 in
  let temp_dir := mkdtemp (fs wc) in
  rglob (<[norm temp_dir := Node true 0]> (fs wc))
    (Path (directory args)) avi_pattern = [] →
  ∃ w', main args w = (Ok 0, w')
        ∧ invoked w'
          = invoked w ++ [lookup_cmd "mplayer"; lookup_cmd "ffmpeg"]
        ∧ fs w' = rmtree temp_dir (<[norm temp_dir := Node true 0]> (fs wc))
        ∧ last (stdout w')
          = Some (RED Colors
                    +:+ "No AVI files found in the specified directory."
                    +:+ NC Colors).
Proof.
  intros Hdir Hchk wc temp_dir Hempty.
  destruct (main_run args w Hdir Hchk)
    as (w2 & w' & Hmain & Hfs & Hinv & Hout & _ & Hnil & trace & Hi & Hmp
        & Hall & Hff).
  fold wc temp_dir in Hfs, Hnil, Hmp, Hff. rewrite Hempty in Hnil, Hmp, Hff.
  destruct (Hnil eq_refl) as [Hfs2 Hlast].
  assert (trace = []) as ->.
  { destruct trace as [|cmd trace]; [done|].
    apply Forall_cons in Hall as [[Hc|Hc] _].
    - by rewrite filter_cons_True in Hmp by done.
    - rewrite filter_cons_True in Hff by done. simpl in Hff. lia. }
  exists w'. rewrite Hfs, Hinv, Hout, Hi, Hfs2.
  split_and!; done.
Qed.

(** ** Colours *)

(** X13.  On Windows without a non-empty [WT_SESSION] the module-level
    loop blanks every attribute of [Colors], so [print_colored] with any
    of the class's colours prints the message alone; everywhere else the
    message is wrapped in the escape sequence of the colour and the
    reset sequence. *)
Theorem colours_follow_the_console (message : string) (w : OS) :
  (platform_system = "Windows" ∧ default "" WT_SESSION = "" →
   ∀ color, color ∈ [GREEN Colors; YELLOW Colors; RED Colors; BLUE Colors] →
     stdout (print_colored color message w).2 = stdout w ++ [message])
  ∧ (platform_system ≠ "Windows" ∨ default "" WT_SESSION ≠ "" →
     stdout (print_colored (RED Colors) message w).2
     = stdout w ++ [ESC +:+ "[0;31m" +:+ message +:+ ESC +:+ "[0m"]).
Proof.
  unfold print_colored, print, Colors. simpl. split.
  - intros [Hw Hs] color Hc.
    rewrite (bool_decide_eq_true_2 _ Hw) in *.
    rewrite (bool_decide_eq_false_2 (default "" WT_SESSION ≠ ""))
      in * by (by intros H; apply H).
    simpl in *. do 2 f_equal.
    assert (color = "") as ->
      by (repeat (apply elem_of_cons in Hc as [Hc|Hc]; [done|]);
          by apply elem_of_nil in Hc).
    by rewrite app_nil_l_s, app_nil_r_s.
  - intros H.
    assert (E : bool_decide (platform_system = "Windows")
                && negb (bool_decide (default "" WT_SESSION ≠ "")) = false).
    { destruct H as [H|H].
      - by rewrite (bool_decide_eq_false_2 _ H).
      - rewrite (bool_decide_eq_true_2 _ H). apply andb_false_r. }
    rewrite E. simpl. by rewrite !app_assoc_s.
Qed.

End MoreFacts.

(** ** Further instances on the example file systems *)

Lemma check_requirements_report_witness :
  let env := Demo.linux ["mplayer"] [] in
  ∃ w', check_requirements Demo.videos = (Ok false, w')
        ∧ invoked w' = [["which"; "mplayer"]; ["which"; "ffmpeg"]].
Proof.
  intros env.
  assert (H : check_requirements Demo.videos
              = (Ok false, (check_requirements Demo.videos).2))
    by (vm_compute; reflexivity).
  pose proof (@check_requirements_report env Demo.videos false _ H) as H'.
  cbv zeta in H'. destruct H' as (_ & _ & Hinv & _).
  exists (check_requirements Demo.videos).2.
  split; [exact H | exact Hinv].
Defined.

Lemma missing_tool_exit_1_witness :
  let env := Demo.linux ["mplayer"] [] in
  ∃ w', main {| directory := "/videos"; remove_original_file := PyFalse |}
          Demo.videos = (Ok 1, w')
        ∧ tmpdirs w' = [].
Proof.
  intros env.
  set (args := {| directory := "/videos";
                  remove_original_file := PyFalse |}).
  assert (Hd : (os_path_isdir (directory args) Demo.videos).1 = Ok true)
    by (vm_compute; reflexivity).
  assert (Hc : (check_requirements Demo.videos).1 = Ok false)
    by (vm_compute; reflexivity).
  destruct (@missing_tool_exit_1 env args Demo.videos Hd Hc)
    as (w' & H1 & H2 & _).
  exists w'. split; [exact H1 | exact H2].
Defined.

Lemma lookup_crash_propagates_witness :
  let env := windows_console in
  ∃ w', main {| directory := "/videos"; remove_original_file := PyFalse |}
          Demo.videos = (Raise (Exn FileNotFoundError "where"), w')
        ∧ tmpdirs w' = [].
Proof.
  intros env.
  set (args := {| directory := "/videos";
                  remove_original_file := PyFalse |}).
  assert (Hd : (os_path_isdir (directory args) Demo.videos).1 = Ok true)
    by (vm_compute; reflexivity).
  assert (He : exec (fs Demo.videos) (invoked Demo.videos)
                 (lookup_cmd "mplayer")
               = (fs Demo.videos, Raise (Exn FileNotFoundError "where")))
    by (vm_compute; reflexivity).
  assert (Hs : is_SubprocessError (Exn FileNotFoundError "where") = false)
    by reflexivity.
  destruct (@lookup_crash_propagates env args Demo.videos _ _ Hd He Hs)
    as (w' & H1 & H2 & _).
  exists w'. split; [exact H1 | exact H2].
Defined.

Lemma conversion_file_effects_witness :
  let env := Demo.linux ["mplayer"; "ffmpeg"] [] in
  output_mp4_of "/videos/a.avi" = Ok "/videos/a.mp4"
  ∧ ∃ w', convert_avi_to_mp4 "/videos/a.avi" "/tmp/tmpk3v9x1" PyFalse
            Demo.videos = (Ok true, w')
          ∧ tmpdirs w' = tmpdirs Demo.videos.
Proof.
  intros env.
  assert (H1 : output_mp4_of "/videos/a.avi" = Ok "/videos/a.mp4")
    by (vm_compute; reflexivity).
  assert (H2 : convert_avi_to_mp4 "/videos/a.avi" "/tmp/tmpk3v9x1" PyFalse
                 Demo.videos
               = (Ok true,
                  (convert_avi_to_mp4 "/videos/a.avi" "/tmp/tmpk3v9x1"
                     PyFalse Demo.videos).2))
    by (vm_compute; reflexivity).
  split; [exact H1|]. eexists. split; [exact H2|].
  exact (proj1 (@conversion_file_effects env _ _ _ _ _ _ _ H1 H2)).
Defined.

Lemma remux_failure_keeps_original_witness :
  let env := linux_with careful_tools in
  ∃ w', convert_avi_to_mp4 "/videos/a.avi" "/tmp/tmpk3v9x1" (PyStr "yes")
          converted = (Ok false, w')
        ∧ fs w'
          = <["/tmp/tmpk3v9x1/a.h264" := Node false 1000]> (fs converted).
Proof.
  intros env.
  set (m1 := <["/tmp/tmpk3v9x1/a.h264" := Node false 1000]> (fs converted)).
  set (p2 := Completed 1 "File '/videos/a.mp4' already exists. Exiting.").
  set (temp := temp_h264_of "/tmp/tmpk3v9x1" "/videos/a.avi").
  assert (Ho : output_mp4_of "/videos/a.avi" = Ok "/videos/a.mp4")
    by (vm_compute; reflexivity).
  assert (H1 : exec (fs converted) (invoked converted)
                 (mplayer_cmd temp "/videos/a.avi")
               = (m1, Ok (Completed 0 "")))
    by (vm_compute; reflexivity).
  assert (Hg : ¬ extraction_fails m1 (Completed 0 "") temp).
  { intros [H|H]; [by apply H|]. vm_compute in H. discriminate H. }
  assert (H2 : exec m1 (invoked converted
                          ++ [mplayer_cmd temp "/videos/a.avi"])
                 (ffmpeg_cmd temp "/videos/a.mp4")
               = (m1, Ok p2))
    by (vm_compute; reflexivity).
  assert (Hf : returncode p2 ≠ 0 ∨ m1 !! norm "/videos/a.mp4" = None)
    by (left; discriminate).
  destruct (@remux_failure_keeps_original env
              "/videos/a.avi" "/tmp/tmpk3v9x1" (PyStr "yes") converted
              "/videos/a.mp4" m1 m1 (Completed 0 "") p2 Ho H1 Hg H2 Hf)
    as (w' & E1 & _ & E2 & _).
  exists w'. split; [exact E1 | exact E2].
Defined.


Lemma batch_runs_each_file_once_witness :
  let env := Demo.linux ["mplayer"; "ffmpeg"] ["/videos/b.AVI"] in
  ∃ w' results,
    batch_loop ["/videos/a.avi"; "/videos/b.AVI"] "/tmp/tmpk3v9x1" PyFalse
      0 0 Demo.videos = (Ok (1, 1), w')
    ∧ Forall2 (λ a r, file_run "/tmp/tmpk3v9x1" a r.1 r.2)
        ["/videos/a.avi"; "/videos/b.AVI"] results
    ∧ invoked w' = invoked Demo.videos ++ concat results.*2.
Proof.
  intros env.
  assert (H : batch_loop ["/videos/a.avi"; "/videos/b.AVI"]
                "/tmp/tmpk3v9x1" PyFalse 0 0 Demo.videos
              = (Ok (1, 1),
                 (batch_loop ["/videos/a.avi"; "/videos/b.AVI"]
                    "/tmp/tmpk3v9x1" PyFalse 0 0 Demo.videos).2))
    by (vm_compute; reflexivity).
  destruct (@batch_runs_each_file_once env _ _ _ _ _ _ _ _ _ H)
    as (results & H1 & H2 & _).
  eexists _, results. split; [exact H|]. split; [exact H1 | exact H2].
Defined.

Lemma output_paths_shared_witness :
  output_mp4_of "/videos/a.avi" = output_mp4_of "/videos/a.AVI".
Proof.
  assert (Hf : name (Path "/videos/a.avi") ≠ "")
    by (vm_compute; discriminate).
  assert (Hg : name (Path "/videos/a.AVI") ≠ "")
    by (vm_compute; discriminate).
  assert (Hp : parent (Path "/videos/a.avi") = parent (Path "/videos/a.AVI")
               ∧ stem (Path "/videos/a.avi") = stem (Path "/videos/a.AVI"))
    by (split; vm_compute; reflexivity).
  exact (proj2 (output_paths_shared "/videos/a.avi" "/videos/a.AVI" Hf Hg)
           Hp).
Defined.

Lemma success_removes_only_original_witness :
  let env := Demo.linux ["mplayer"; "ffmpeg"] [] in
  ∃ w', convert_avi_to_mp4 "/videos/a.avi" "/tmp/tmpk3v9x1" (PyStr "yes")
          Demo.videos = (Ok true, w')
        ∧ is_Some (fs w' !! norm "/videos/a.mp4")
        ∧ fs w' !! norm "/videos/a.avi" = None.
Proof.
  intros env.
  assert (H : convert_avi_to_mp4 "/videos/a.avi" "/tmp/tmpk3v9x1"
                (PyStr "yes") Demo.videos
              = (Ok true,
                 (convert_avi_to_mp4 "/videos/a.avi" "/tmp/tmpk3v9x1"
                    (PyStr "yes") Demo.videos).2))
    by (vm_compute; reflexivity).
  assert (Hfind : (find_avi_files "/videos" Demo.videos).1
                  = Ok ["/videos/a.avi"; "/videos/b.AVI"])
    by (vm_compute; reflexivity).
  assert (Hin : "/videos/a.avi" ∈ ["/videos/a.avi"; "/videos/b.AVI"])
    by (apply (bool_decide_unpack _); vm_compute; exact I).
  assert (Ho : output_mp4_of "/videos/a.avi" = Ok "/videos/a.mp4")
    by (vm_compute; reflexivity).
  assert (Ht : truthy (PyStr "yes") = true) by (vm_compute; reflexivity).
  pose proof (@success_removes_only_original env
                "/videos" "/videos/a.avi" "/tmp/tmpk3v9x1" (PyStr "yes")
                Demo.videos Demo.videos _ _ _ Hfind Hin Ho H) as H'.
  cbv zeta in H'. destruct H' as (H1 & H2 & _).
  eexists. split; [exact H|]. split; [exact H1|].
  exact (proj1 (H2 Ht)).
Defined.

Lemma workspace_removed_at_exit_witness :
  let env := Demo.linux ["mplayer"; "ffmpeg"] [] in
  ∃ w', main {| directory := "/videos"; remove_original_file := PyFalse |}
          Demo.videos = (Ok 0, w')
        ∧ fs w' !! norm (mkdtemp (fs (check_requirements Demo.videos).2))
          = None.
Proof.
  intros env.
  set (args := {| directory := "/videos";
                  remove_original_file := PyFalse |}).
  assert (Hd : (os_path_isdir (directory args) Demo.videos).1 = Ok true)
    by (vm_compute; reflexivity).
  assert (Hc : (check_requirements Demo.videos).1 = Ok true)
    by (vm_compute; reflexivity).
  pose proof (@workspace_removed_at_exit env args Demo.videos Hd Hc) as H'.
  cbv zeta in H'. destruct H' as (w' & H1 & _ & H2 & _).
  exists w'. split; [exact H1 | exact H2].
Defined.

Lemma main_command_trace_witness :
  let env := Demo.linux ["mplayer"; "ffmpeg"] ["/videos/b.AVI"] in
  ∃ w' trace,
    main {| directory := "/videos"; remove_original_file := PyFalse |}
      Demo.videos = (Ok 0, w')
    ∧ invoked w'
      = invoked Demo.videos
        ++ [lookup_cmd "mplayer"; lookup_cmd "ffmpeg"] ++ trace.
Proof.
  intros env.
  set (args := {| directory := "/videos";
                  remove_original_file := PyFalse |}).
  assert (Hd : (os_path_isdir (directory args) Demo.videos).1 = Ok true)
    by (vm_compute; reflexivity).
  assert (Hc : (check_requirements Demo.videos).1 = Ok true)
    by (vm_compute; reflexivity).
  pose proof (@main_command_trace env args Demo.videos Hd Hc) as H'.
  cbv zeta in H'. destruct H' as (w' & trace & H1 & H2 & _).
  exists w', trace. split; [exact H1 | exact H2].
Defined.

Lemma no_files_found_exit_0_witness :
  let env := Demo.linux ["mplayer"; "ffmpeg"] [] in
  ∃ w', main {| directory := "/videos"; remove_original_file := PyFalse |}
          no_videos = (Ok 0, w')
        ∧ invoked w'
          = invoked no_videos ++ [lookup_cmd "mplayer"; lookup_cmd "ffmpeg"].
Proof.
  intros env.
  set (args := {| directory := "/videos";
                  remove_original_file := PyFalse |}).
  assert (Hd : (os_path_isdir (directory args) no_videos).1 = Ok true)
    by (vm_compute; reflexivity).
  assert (Hc : (check_requirements no_videos).1 = Ok true)
    by (vm_compute; reflexivity).
  assert (He : rglob (<[norm (mkdtemp (fs (check_requirements no_videos).2))
                          := Node true 0]>
                        (fs (check_requirements no_videos).2))
                 (Path (directory args)) avi_pattern = [])
    by (vm_compute; reflexivity).
  destruct (@no_files_found_exit_0 env args no_videos Hd Hc He)
    as (w' & H1 & H2 & _).
  exists w'. split; [exact H1 | exact H2].
Defined.

Lemma colours_follow_the_console_witness :
  let env := windows_console in
  stdout (print_colored (RED Colors) "Error" Demo.videos).2
  = stdout Demo.videos ++ ["Error"].
Proof.
  intros env.
  assert (Hw : platform_system = "Windows" ∧ default "" WT_SESSION = "")
    by (split; reflexivity).
  assert (Hin : RED Colors
                ∈ [GREEN Colors; YELLOW Colors; RED Colors; BLUE Colors])
    by (apply (bool_decide_unpack _); vm_compute; exact I).
  exact (proj1 (@colours_follow_the_console env "Error" Demo.videos)
           Hw (RED Colors) Hin).
Defined.
